(** * Modelbuilder_V2: the experiment harness of the transfer-learning classifier

    A shallow embedding of [src/DevCode/Modelbuilder_V2.py].  The numerical
    work (forward and backward passes, data loading, plotting) is done by
    torch and torchvision and enters the model as inputs: the validation
    loss of an epoch, the learning rate the scheduler left behind, the
    serialized parameters.  What is embedded is the bookkeeping the class
    [Classifier] does around it: the experiment log, the purge of
    artifacts, the choice of backbone, optimizer and scheduler, the
    train/validation split and the improvement rule of the training loop.

    Conventions.
    - Text is [string]; the newline is the character of code 10.
    - Python floats that are only compared and printed are [spec_float]
      (IEEE 754 values with the comparison of the Standard Library, so a
      NaN compares false with everything).  [str] of a float is not
      re-implemented: it is the section variable [str_float].
    - The file system is a finite map from paths to file contents and a
      finite set of directories.  Paths are the strings the code builds,
      with the backslash separators it writes.
    - A method is a function from the file system to a result (a value or
      the exception raised) and the file system it leaves behind.
    - The interrupt handler of [train] answers a signal that can arrive at
      any instruction; [train] is embedded without it, and the handler on
      its own as [train_interrupted].
    - The channel arithmetic of [un_normalize] is exact, on rationals.
    - The figures of [visualize_histogram], [view_classify], [imshow] and
      [plot_image_class] are drawn by matplotlib from the outputs of the
      network; these methods are not embedded. *)

From Stdlib Require Import ZArith QArith Qround Lqa Ascii String List Lia.
From Stdlib Require Import Floats.SpecFloat.
From stdpp Require Import base option list gmap strings pretty.

Local Open Scope string_scope.
Local Open Scope list_scope.
Local Open Scope Z_scope.

(* stdpp keeps [simpl] away from string concatenation; the proofs below
   compute with it. *)
Local Arguments String.append !_ _ / : simpl nomatch.

(** ** Text *)

Definition newline : ascii := "010"%char.
Definition nl : string := String newline "".
Definition backslash : ascii := "\"%char.

Definition is_newline (c : ascii) : bool := Ascii.eqb c newline.

(** The visual separator [write_data] puts between records:
    ['\n----------------------------------------------\n\n']. *)
Definition dashes : string := "----------------------------------------------".
Definition separator : string := nl +:+ dashes +:+ nl +:+ nl.

(** [s.startswith(p)]. *)
Fixpoint starts_with (p s : string) : bool :=
  match p, s with
  | "", _ => true
  | String a p', String b s' => Ascii.eqb a b && starts_with p' s'
  | String _ _, "" => false
  end.

(** [p in s] for strings; also [re.search(p, s)] for a pattern [p] without
    regular-expression metacharacters. *)
Fixpoint contains (p s : string) : bool :=
  starts_with p s ||
  match s with
  | "" => false
  | String _ s' => contains p s'
  end.

Fixpoint drop_chars (n : nat) (s : string) : string :=
  match n, s with
  | O, _ => s
  | S n', String _ s' => drop_chars n' s'
  | S _, "" => ""
  end.

Definition ends_with (p s : string) : bool :=
  (String.length p <=? String.length s)%nat &&
  String.eqb (drop_chars (String.length s - String.length p) s) p.

(** [new.join(s)] with [new] also put in front and behind: what
    [s.replace('', new)] returns. *)
Fixpoint interleave (new s : string) : string :=
  match s with
  | "" => new
  | String c s' => new +:+ String c (interleave new s')
  end.

(** [data.replace(old, new)]: every occurrence of [old], found from the
    left and not overlapping an earlier one, is replaced.  [skip] counts
    the characters of a replaced occurrence still to be passed over. *)
Fixpoint replace_go (old new : string) (skip : nat) (data : string) : string :=
  match data with
  | "" => ""
  | String c rest =>
      match skip with
      | S k => replace_go old new k rest
      | O =>
          if starts_with old data
          then new +:+ replace_go old new (String.length old - 1) rest
          else String c (replace_go old new 0 rest)
      end
  end.

Definition str_replace (old new data : string) : string :=
  match old with
  | "" => interleave new data
  | _ => replace_go old new 0 data
  end.

(** ** The fragment of [re] that [write_data] uses *)

(** [n] characters from the head of [s], none of them a newline: what
    ['.{n}'] matches at the head of [s]. *)
Fixpoint take_plain (n : nat) (s : string) : option string :=
  match n with
  | O => Some ""
  | S n' =>
      match s with
      | "" => None
      | String c s' =>
          if is_newline c then None
          else String c <$> take_plain n' s'
      end
  end.

(** [re.findall('.{15}', lines)[0]]: the leftmost run of 15 characters
    without a newline; [None] is Python's [IndexError] on the empty list. *)
Fixpoint re_first_run (n : nat) (s : string) : option string :=
  match take_plain n s with
  | Some r => Some r
  | None =>
      match s with
      | "" => None
      | String _ s' => re_first_run n s'
      end
  end.

(** The identifier found that way is pasted into a second pattern, so its
    characters are read as a regular expression.  A dot is a wildcard, an
    ordinary character stands for itself; the other metacharacters are
    outside the embedded fragment. *)
Inductive atom : Type :=
  | Lit (c : ascii)
  | Dot.

Definition metachars : string := "^$*+?{}[]\|()".

Definition is_meta (c : ascii) : bool :=
  contains (String c "") metachars.

Fixpoint compile_ident (s : string) : option (list atom) :=
  match s with
  | "" => Some []
  | String c s' =>
      if is_meta c then None
      else
        (if Ascii.eqb c "."%char then cons Dot else cons (Lit c))
          <$> compile_ident s'
  end.

Definition atom_matches (a : atom) (c : ascii) : bool :=
  match a with
  | Lit x => Ascii.eqb x c
  | Dot => negb (is_newline c)
  end.

(** The atoms matched at the head of [s]: the text matched and the rest. *)
Fixpoint match_here (p : list atom) (s : string) : option (string * string) :=
  match p with
  | [] => Some ("", s)
  | a :: p' =>
      match s with
      | "" => None
      | String c s' =>
          if atom_matches a c
          then (λ mr, (String c mr.1, mr.2)) <$> match_here p' s'
          else None
      end
  end.

(** The characters up to the next newline: what a greedy ['.*'] takes. *)
Fixpoint line_rest (s : string) : string :=
  match s with
  | "" => ""
  | String c s' => if is_newline c then "" else String c (line_rest s')
  end.

(** [ident + '.+'] matched at the head of [s]. *)
Definition match_ident_dotplus (p : list atom) (s : string) : option string :=
  match match_here p s with
  | Some (m, r) =>
      match line_rest r with
      | "" => None
      | l => Some (m +:+ l)
      end
  | None => None
  end.

(** [re.findall(ident + '.+', data)[0]]: the leftmost match. *)
Fixpoint re_findall_first (p : list atom) (data : string) : option string :=
  match match_ident_dotplus p data with
  | Some o => Some o
  | None =>
      match data with
      | "" => None
      | String _ d' => re_findall_first p d'
      end
  end.

(** ** Exceptions and the file system *)

Inductive exn : Type :=
  | ModelNotFoundError
  | DataNotArrangedError
  | FeaturesNotProvidedError
  | FileNotFoundError
  | IOError
  | IndexError
  | TypeError
  | AttributeError
  | ReOutsideFragment.  (* a pattern the embedded fragment of [re] lacks *)

Inductive result (A : Type) : Type :=
  | Ok (a : A)
  | Raise (e : exn).
Arguments Ok {A} a.
Arguments Raise {A} e.

Record FS : Type := mkFS {
  files : gmap string string;
  dirs : gset string
}.

Definition M (A : Type) : Type := FS → result A * FS.

Definition raise {A} (e : exn) : M A := λ fs, (Raise e, fs).

Definition ret {A} (a : A) : M A := λ fs, (Ok a, fs).
Definition bind {A B} (m : M A) (k : A → M B) : M B :=
  λ fs, match m fs with
        | (Ok a, fs') => k a fs'
        | (Raise e, fs') => (Raise e, fs')
        end.

Notation "'let!' x ':=' m 'in' k" := (bind m (λ x, k))
  (at level 10, x name, m at level 100, k at level 200).
Notation "'do!' m 'in' k" := (bind m (λ _, k))
  (at level 10, m at level 100, k at level 200).

(** Every proper prefix of [p] that ends just before a backslash:
    the directories [os.makedirs] creates on the way. *)
Fixpoint parents_go (acc p : string) : list string :=
  match p with
  | "" => []
  | String c p' =>
      (if Ascii.eqb c backslash then [acc] else []) ++
      parents_go (acc +:+ String c "") p'
  end.
Definition parents (p : string) : list string := parents_go "" p.

Definition isdir (p : string) : M bool :=
  λ fs, (Ok (bool_decide (p ∈ dirs fs)), fs).

Definition makedirs (p : string) : M unit :=
  λ fs, (Ok (), mkFS (files fs) (dirs fs ∪ {[p]} ∪ list_to_set (parents p))).

(** [open(p, 'a+')] followed by the writes of [text]: the file is created
    when it is missing. *)
Definition append_file (p text : string) : M unit :=
  λ fs, (Ok (), mkFS (<[p := default "" (files fs !! p) +:+ text]> (files fs))
                     (dirs fs)).

(** [open(p, 'rt').read()]. *)
Definition read_file (p : string) : M string :=
  λ fs, match files fs !! p with
        | Some data => (Ok data, fs)
        | None => (Raise FileNotFoundError, fs)
        end.

(** [open(p, 'wt').write(data)], also [torch.save(blob, p)]. *)
Definition write_file (p data : string) : M unit :=
  λ fs, (Ok (), mkFS (<[p := data]> (files fs)) (dirs fs)).

Definition remove (p : string) : M unit :=
  λ fs, (Ok (), mkFS (delete p (files fs)) (dirs fs)).

(** [glob.glob(d + '\\*.txt')]: the files directly in [d] whose name ends
    in [.txt] and does not start with a dot.  A name with a separator in
    it is a file of a subdirectory. *)
Definition glob_txt_name (name : string) : bool :=
  ends_with ".txt" name &&
  negb (starts_with "." name) &&
  negb (contains (String backslash "") name) &&
  negb (contains "/" name).

Definition is_glob_txt (d p : string) : bool :=
  starts_with (d +:+ String backslash "") p &&
  glob_txt_name (drop_chars (String.length d + 1) p).

Definition glob_txt (d : string) : M (list string) :=
  λ fs, (Ok (filter (λ p, is_glob_txt d p = true)
                    (map_to_list (files fs)).*1), fs).

(** [shutil.rmtree(d)]: [false] stands for the [OSError] of a missing
    directory, which [delete_file] catches and prints. *)
Definition under (d p : string) : bool :=
  String.eqb d p || starts_with (d +:+ String backslash "") p.

Definition rmtree (d : string) : M bool :=
  λ fs, if bool_decide (d ∈ dirs fs)
        then (Ok true,
              mkFS (filter (λ kv, under d kv.1 = false) (files fs))
                   (filter (λ p, under d p = false) (dirs fs)))
        else (Ok false, fs).


(** ** The classifier object *)

Inductive Device : Type := cuda | cpu.

(** The constructors of [torchvision.models] the code calls. *)
Inductive Architecture : Type :=
  | models_resnet18
  | models_resnet50
  | models_resnet101
  | models_resnet152
  | models_vgg16.

(** [lines: Union[str, List]]. *)
Inductive py_lines : Type :=
  | Str (s : string)
  | Lst (l : list string).

Inductive Optimizer : Type :=
  | optim_Adam (lr : spec_float)
  | optim_SGD (lr : spec_float).

Inductive Scheduler : Type :=
  | StepLR (opt : Optimizer) (step_size : Z) (gamma : spec_float)
  | ReduceLROnPlateau (opt : Optimizer) (factor : spec_float) (patience : Z)
      (threshold : spec_float).

(** The head put on the backbone: the linear layers as (inputs, outputs),
    each but the last followed by a ReLU. *)
Record Net : Type := mkNet {
  backbone : Architecture;
  frozen : bool;
  fc : list (Z * Z)
}.

(** The attributes of [self].  Those assigned outside [__init__] are
    options: reading one that is not yet set is an [AttributeError]. *)
Record Classifier : Type := mkClassifier {
  exp_no : Z;
  device : Device;
  Model_name : string;
  Dataset_dir : string;
  Performance_dir : string;
  classes : option (list string);
  train_idx : option (list nat);      (* the sampler of [trainloader] *)
  valid_idx : option (list nat);      (* the sampler of [validloader] *)
  test_len : option nat;              (* the sampler of [testloader] *)
  TempNetwork : option Architecture;
  Network : option Net;
  lr : option spec_float;
  optimizer : option Optimizer;
  scheduler : option Scheduler;
  criterion : bool                    (* [nn.CrossEntropyLoss()] is set *)
}.

Definition Model_names : list string :=
  ["resnet18"; "resnet50"; "resnet101"; "resnet152"].

(** ** [write_data] and [delete_file] *)

Definition Experiment_info_dir (self : Classifier) : string :=
  Performance_dir self +:+ "\Exp_data".

Definition log_filename (exp_no : Z) : string :=
  "Test Report_" +:+ pretty exp_no +:+ ".txt".

Definition log_path (self : Classifier) (exp_no : Z) : string :=
  Experiment_info_dir self +:+ "\" +:+ log_filename exp_no.

Definition model_stats_dir (self : Classifier) (exp_no : Z) : string :=
  Performance_dir self +:+ "\Model_Stats\exp_" +:+ pretty exp_no.

(** The loop over a list of lines; [tfile] is what has been written to the
    open file so far. *)
Fixpoint write_each (continuing : bool) (lines : list string) (tfile : string)
  : string :=
  match lines with
  | [] => tfile
  | line :: rest =>
      let tfile := tfile +:+ (line +:+ nl) in
      let tfile := if continuing then tfile else tfile +:+ separator in
      write_each continuing rest tfile
  end.

(** Everything one call in append mode writes to the file. *)
Definition appended_text (lines : py_lines) (continuing : bool) : string :=
  match lines with
  | Lst l =>
      let tfile := write_each continuing l "" in
      if continuing then tfile +:+ separator else tfile
  | Str s =>
      let tfile := s +:+ nl in
      if continuing then tfile else tfile +:+ separator
  end.

Definition write_data (self : Classifier) (lines : py_lines) (exp_no : Z)
    (continuing replace : bool) : M unit :=
  let! d := isdir (Experiment_info_dir self) in
  do! (if d then ret () else makedirs (Experiment_info_dir self)) in
  if negb replace then
    append_file (log_path self exp_no) (appended_text lines continuing)
  else
    match lines with
    | Lst _ => raise TypeError
    | Str s =>
        match re_first_run 15 s with
        | None => raise IndexError
        | Some old_str_identifier =>
            let! data := read_file (log_path self exp_no) in
            match compile_ident old_str_identifier with
            | None => raise ReOutsideFragment
            | Some p =>
                match re_findall_first p data with
                | None => raise IndexError
                | Some old_string =>
                    write_file (log_path self exp_no)
                               (str_replace old_string s data)
                end
            end
        end
    end.

(** The loop of [delete_file] over the files the glob found. *)
Fixpoint remove_matching (pat : string) (found : list string) : M unit :=
  match found with
  | [] => ret ()
  | file :: rest =>
      do! (if contains pat file then remove file else ret ()) in
      remove_matching pat rest
  end.

Definition delete_file (self : Classifier) (exp_no : Z) (stats_delete : bool)
  : M unit :=
  do! (if stats_delete
       then let! _ := rmtree (model_stats_dir self exp_no) in ret ()
       else ret ()) in
  let! found := glob_txt (Experiment_info_dir self) in
  match found with
  | [] => raise FileNotFoundError
  | _ =>
      let! found := glob_txt (Experiment_info_dir self) in
      remove_matching ("_" +:+ pretty exp_no) found
  end.


(** ** [__init__], [load_data], [load_model] *)

Definition tab : string := String "009"%char "".

(** [os.path.basename]: what follows the last separator. *)
Fixpoint basename_go (cur s : string) : string :=
  match s with
  | "" => cur
  | String c s' =>
      if Ascii.eqb c backslash || Ascii.eqb c "/"%char
      then basename_go "" s'
      else basename_go (cur +:+ String c "") s'
  end.
Definition basename (s : string) : string := basename_go "" s.

Definition hashes : string := "##############################################".

Definition init (exp_no : Z) (model_to_train dataset_dir performance_dir : string)
    (gpu : option bool) : M Classifier :=
  if negb (bool_decide (model_to_train ∈ Model_names))
  then raise ModelNotFoundError
  else
    let! p := isdir performance_dir in
    if negb p then raise FileNotFoundError
    else
      let! d := isdir dataset_dir in
      if negb d then raise FileNotFoundError
      else
        let self :=
          {| exp_no := exp_no;
             device := match gpu with Some _ => cuda | None => cpu end;
             Model_name := model_to_train;
             Dataset_dir := dataset_dir;
             Performance_dir := performance_dir;
             classes := None; train_idx := None; valid_idx := None;
             test_len := None; TempNetwork := None; Network := None;
             lr := None; optimizer := None; scheduler := None;
             criterion := false |} in
        do! write_data self
              (Lst [hashes;
                    tab +:+ "Model Data for experiment: " +:+ pretty exp_no;
                    tab +:+ "Model Trained: " +:+ model_to_train;
                    tab +:+ "Data set used: " +:+ basename dataset_dir;
                    hashes])
              exp_no true false in
        ret self.

(** What [datasets.ImageFolder] finds under [train] and [test]. *)
Record ImageFolders : Type := mkImageFolders {
  train_data_len : nat;
  test_data_len : nat;
  class_to_idx_keys : list string
}.

(** [l[k:]] and [l[:k]] for an integer [k]: a negative [k] counts from the
    end, and both clip to the list. *)
Definition slice_bound {A} (k : Z) (l : list A) : nat :=
  Z.to_nat (if k <? 0 then Z.max 0 (Z.of_nat (length l) + k) else k).
Definition slice_from {A} (k : Z) (l : list A) : list A := drop (slice_bound k l) l.
Definition slice_to {A} (k : Z) (l : list A) : list A := take (slice_bound k l) l.

(** [int(np.floor(valid_size * len(train_data)))], the product taken
    exactly: [valid_size] is the rational the float stands for. *)
Definition split_point (valid_size : Q) (n : nat) : Z :=
  Qfloor (valid_size * inject_Z (Z.of_nat n)).

(** The two index arrays of [load_data], validation first.  [shuffle] is
    what [np.random.shuffle] does to the array this time. *)
Definition split_indices (shuffle : list nat → list nat) (valid_size : Q)
    (n : nat) : list nat * list nat :=
  let indices := shuffle (seq 0 n) in
  let split := split_point valid_size n in
  (slice_from split indices, slice_to split indices).

Definition load_data (self : Classifier) (valid_size : Q)
    (folders : ImageFolders) (shuffle : list nat → list nat) : M Classifier :=
  let! tr := isdir (Dataset_dir self +:+ "/train") in
  if negb tr then
    do! delete_file self (exp_no self) false in raise DataNotArrangedError
  else
    let! te := isdir (Dataset_dir self +:+ "/test") in
    if negb te then
      do! delete_file self (exp_no self) false in raise DataNotArrangedError
    else
      let '(train_idx, valid_idx) :=
        split_indices shuffle valid_size (train_data_len folders) in
      let self :=
        {| exp_no := exp_no self; device := device self;
           Model_name := Model_name self; Dataset_dir := Dataset_dir self;
           Performance_dir := Performance_dir self;
           classes := Some (class_to_idx_keys folders);
           train_idx := Some train_idx; valid_idx := Some valid_idx;
           test_len := Some (test_data_len folders);
           TempNetwork := TempNetwork self; Network := Network self;
           lr := lr self; optimizer := optimizer self;
           scheduler := scheduler self; criterion := criterion self |} in
      do! write_data self
            (Lst ["Number of Training Examples: " +:+ pretty (length train_idx);
                  "Number of Testing Examples: " +:+ pretty (test_data_len folders);
                  "Number of classes: "
                    +:+ pretty (length (class_to_idx_keys folders))])
            (exp_no self) true false in
      ret self.

(** The [if]/[elif] chain of [load_model]; a name outside it leaves
    [self.TempNetwork] as it was. *)
Definition pretrained (self : Classifier) : option Architecture :=
  if String.eqb (Model_name self) "resnet18" then Some models_resnet18
  else if String.eqb (Model_name self) "resnet50" then Some models_resnet50
  else if String.eqb (Model_name self) "resnet101" then Some models_vgg16
  else if String.eqb (Model_name self) "resnet152" then Some models_resnet101
  else TempNetwork self.

(** [in_features] of the last module of the torchvision model. *)
Definition last_in_features (a : Architecture) : Z :=
  match a with
  | models_resnet18 => 512
  | models_vgg16 => 4096
  | _ => 2048
  end.

(** [features[i]] for [i >= 0]. *)
Definition index {A} (l : list A) (i : nat) : M A :=
  match l !! i with
  | Some x => ret x
  | None => raise IndexError
  end.

(** The loop building the hidden layers, [num] running over [nums]. *)
Fixpoint hidden_layers (features : list Z) (nums : list nat) (in_features : Z)
    (acc : list (Z * Z)) : M (list (Z * Z)) :=
  match nums with
  | [] => ret acc
  | num :: rest =>
      let! out := index features num in
      hidden_layers features rest out (acc ++ [(in_features, out)])%list
  end.

Definition load_model (self : Classifier) (freeze_conv_layers : option bool)
    (num_FCL : Z) (features : option (list Z)) : M Classifier :=
  let frozen := match freeze_conv_layers with Some true => true | _ => false end in
  do! (match pretrained self with
       | None => if frozen then raise AttributeError else ret ()
       | Some _ => ret ()
       end) in
  do! write_data self
        (Str ("Number of Fully connected layers: " +:+ pretty num_FCL))
        (exp_no self) false false in
  match pretrained self with
  | None => raise AttributeError
  | Some temp =>
      let in_features := last_in_features temp in
      let! fc :=
        if negb (num_FCL =? 1) then
          match features with
          | None =>
              do! delete_file self (exp_no self) false in
              raise FeaturesNotProvidedError
          | Some features =>
              let! hidden :=
                hidden_layers features (seq 0 (Z.to_nat (num_FCL - 1)))
                              in_features [] in
              let! last := index (rev features) 0 in
              match classes self with
              | None => raise AttributeError
              | Some cl => ret (hidden ++ [(last, Z.of_nat (length cl))])%list
              end
          end
        else
          match classes self with
          | None => raise AttributeError
          | Some cl => ret [(in_features, Z.of_nat (length cl))]
          end in
      ret {| exp_no := exp_no self; device := device self;
             Model_name := Model_name self; Dataset_dir := Dataset_dir self;
             Performance_dir := Performance_dir self;
             classes := classes self;
             train_idx := train_idx self; valid_idx := valid_idx self;
             test_len := test_len self;
             TempNetwork := Some temp;
             Network := Some (mkNet temp frozen fc);
             lr := lr self; optimizer := optimizer self;
             scheduler := scheduler self; criterion := criterion self |}
  end.

(** ** [setup_optimization] and [train] *)

Definition with_lr (self : Classifier) (x : spec_float) : Classifier :=
  {| exp_no := exp_no self; device := device self;
     Model_name := Model_name self; Dataset_dir := Dataset_dir self;
     Performance_dir := Performance_dir self; classes := classes self;
     train_idx := train_idx self; valid_idx := valid_idx self;
     test_len := test_len self; TempNetwork := TempNetwork self;
     Network := Network self; lr := Some x; optimizer := optimizer self;
     scheduler := scheduler self; criterion := criterion self |}.

Definition with_optimizer (self : Classifier) (o : Optimizer) : Classifier :=
  {| exp_no := exp_no self; device := device self;
     Model_name := Model_name self; Dataset_dir := Dataset_dir self;
     Performance_dir := Performance_dir self; classes := classes self;
     train_idx := train_idx self; valid_idx := valid_idx self;
     test_len := test_len self; TempNetwork := TempNetwork self;
     Network := Network self; lr := lr self; optimizer := Some o;
     scheduler := scheduler self; criterion := criterion self |}.

Definition with_scheduler (self : Classifier) (sc : Scheduler) : Classifier :=
  {| exp_no := exp_no self; device := device self;
     Model_name := Model_name self; Dataset_dir := Dataset_dir self;
     Performance_dir := Performance_dir self; classes := classes self;
     train_idx := train_idx self; valid_idx := valid_idx self;
     test_len := test_len self; TempNetwork := TempNetwork self;
     Network := Network self; lr := lr self; optimizer := optimizer self;
     scheduler := Some sc; criterion := criterion self |}.

Definition with_criterion (self : Classifier) : Classifier :=
  {| exp_no := exp_no self; device := device self;
     Model_name := Model_name self; Dataset_dir := Dataset_dir self;
     Performance_dir := Performance_dir self; classes := classes self;
     train_idx := train_idx self; valid_idx := valid_idx self;
     test_len := test_len self; TempNetwork := TempNetwork self;
     Network := Network self; lr := lr self; optimizer := optimizer self;
     scheduler := scheduler self; criterion := true |}.

(** [np.Inf]. *)
Definition Inf : spec_float := S754_infinity false.

(** What the numerical part of one epoch hands to the bookkeeping: the
    validation loss, the learning rate found in the optimizer afterwards
    and the serialized parameters. *)
Record Epoch : Type := mkEpoch {
  valid_loss : spec_float;
  current_lr : spec_float;
  state_dict : string
}.

(** The figures of the test pass: the loss, for each class its top-1 and
    top-5 accuracy ([None] when the class has no test example) and the two
    overall accuracies. *)
Record TestPass : Type := mkTestPass {
  test_loss : spec_float;
  class_accuracy : list (option (spec_float * spec_float));
  accuracy : spec_float;
  accuracy5 : spec_float
}.

(** The local variables of [train] that survive an epoch.  [saved] is a
    ghost: the epochs at which [torch.save] wrote the checkpoint. *)
Record Loop : Type := mkLoop {
  valid_loss_min : option spec_float;   (* [None] is Python's [None] *)
  improvements : nat;
  saved : list nat
}.

Section Harness.

(** [str] on a float. *)
Variable str_float : spec_float → string.

Definition setup_optimization (self : Classifier)
    (optimizer_name scheduler_name : string) (learning_rate factor threshold : spec_float)
    (patience step_size : Z) (gamma : spec_float) : M Classifier :=
  let self := with_lr self learning_rate in
  do! write_data self
        (Lst ["Optimizer name: " +:+ optimizer_name;
              "Scheduler name: " +:+ scheduler_name;
              "Starting Learning rate: " +:+ str_float learning_rate])
        (exp_no self) true false in
  if negb (bool_decide (optimizer_name ∈ ["adam"; "SGD"])) then
    do! delete_file self (exp_no self) false in raise IOError
  else if negb (bool_decide (scheduler_name ∈ ["reduceOnPlateau"; "StepLR"])) then
    do! delete_file self (exp_no self) false in raise IOError
  else
    match Network self with
    | None => raise AttributeError
    | Some _ =>
        let self :=
          if String.eqb optimizer_name "adam"
          then with_optimizer self (optim_Adam learning_rate)
          else self in
        let sgd := optim_SGD learning_rate in
        let self := with_optimizer self sgd in
        let! self :=
          if String.eqb scheduler_name "StepLR" then
            let self := with_scheduler self (StepLR sgd step_size gamma) in
            do! write_data self
                  (Lst ["StepLR scheduler Parameters:-";
                        "Step size: " +:+ pretty step_size;
                        "Gamma: " +:+ str_float gamma])
                  (exp_no self) true false in
            ret self
          else ret self in
        let self :=
          with_scheduler self (ReduceLROnPlateau sgd factor patience threshold) in
        do! write_data self
              (Lst ["reduceOnPlateau Scheduler parameters:-";
                    "Factor: " +:+ str_float factor;
                    "Threshold: " +:+ str_float threshold;
                    "Patience: " +:+ pretty patience])
              (exp_no self) true false in
        ret (with_criterion self)
    end.

Definition checkpoint_dir (self : Classifier) : string :=
  Performance_dir self +:+ "\Checkpoints".

Definition checkpoint_path (self : Classifier) : string :=
  checkpoint_dir self +:+ "\" +:+ Model_name self +:+ "_"
  +:+ pretty (exp_no self) +:+ ".pth".

(** The three lines of the best-metric record. *)
Definition prev_min_line (m : spec_float) : string :=
  "Previous Min Valid loss: " +:+ str_float m.
Definition min_line (v : spec_float) : string :=
  "Minimum Valid loss: " +:+ str_float v.
Definition best_lr_line (x : spec_float) : string :=
  "Best Learning rate that gave min valid loss: " +:+ str_float x.


(** The bookkeeping at the end of epoch number [epoch], after the two
    passes have produced [ep].  Comparing a float with [None] is a
    [TypeError]. *)
Definition train_epoch (self : Classifier) (epoch : nat) (ep : Epoch)
    (st : Loop) : M Loop :=
  match valid_loss_min st with
  | None => raise TypeError
  | Some m =>
      if SFleb (valid_loss ep) m then
        do! write_file (checkpoint_path self) (state_dict ep) in
        let replace := negb (improvements st =? 0)%nat in
        do! write_data self (Str (prev_min_line m)) (exp_no self) true replace in
        do! write_data self (Str (min_line (valid_loss ep))) (exp_no self)
              false replace in
        do! write_data self (Str (best_lr_line (current_lr ep))) (exp_no self)
              false replace in
        ret {| valid_loss_min := Some (valid_loss ep);
               improvements := S (improvements st);
               saved := saved st ++ [epoch] |}
      else ret st
  end.

(** [for epoch in range(1, n_epochs+1)], [run_epoch] giving the outcome of
    the passes of each epoch. *)
Fixpoint train_loop (self : Classifier) (run_epoch : nat → Epoch)
    (epochs : list nat) (st : Loop) : M Loop :=
  match epochs with
  | [] => ret st
  | epoch :: rest =>
      let! st := train_epoch self epoch (run_epoch epoch) st in
      train_loop self run_epoch rest st
  end.

(** The log lines of the per-class loop of the test report. *)
Fixpoint write_class_accuracy (self : Classifier)
    (rows : list (string * option (spec_float * spec_float))) : M unit :=
  match rows with
  | [] => ret ()
  | (name, Some (top1, top5)) :: rest =>
      do! write_data self
            (Str ("Top-1 Accuracy of class " +:+ name +:+ " : " +:+ str_float top1))
            (exp_no self) true false in
      do! write_data self
            (Str ("Top-5 Accuracy of class " +:+ name +:+ " : " +:+ str_float top5))
            (exp_no self) false false in
      write_class_accuracy self rest
  | (_, None) :: rest => write_class_accuracy self rest
  end.

Definition write_test_report (self : Classifier) (test : TestPass) : M unit :=
  match classes self with
  | None => raise AttributeError
  | Some cl =>
      do! write_data self (Str ("Testing loss: " +:+ str_float (test_loss test)))
            (exp_no self) false false in
      do! write_class_accuracy self (zip cl (class_accuracy test)) in
      write_data self
        (Lst ["Overall Top-1 accuracy : " +:+ str_float (accuracy test);
              "Overall Top-5 accuracy: " +:+ str_float (accuracy5 test)])
        (exp_no self) false false
  end.

(** The start of [train]: the running minimum the loop begins with. *)
Definition resolve_start (self : Classifier) (custom_path load_prev : option string)
    (valid_loss : option spec_float) : M (option spec_float) :=
  match custom_path with
  | Some path =>
      let! _ := read_file path in
      match valid_loss with
      | None => do! delete_file self (exp_no self) false in raise IOError
      | Some v =>
          do! write_data self (Str ("Model Loaded from Custom path: " +:+ path))
                (exp_no self) false false in
          ret (Some v)
      end
  | None =>
      match load_prev with
      | Some path =>
          let! _ := read_file path in
          do! write_data self
                (Str ("Model Loaded from previous checkpoint: " +:+ path))
                (exp_no self) false false in
          ret valid_loss
      | None =>
          do! write_data self (Str "Trained From beginning") (exp_no self)
                false false in
          ret (Some Inf)
      end
  end.

(** [train].  The value returned is a ghost, Python returns [None]: the
    loop variables at the end of the last epoch. *)
Definition train (self : Classifier) (n_epochs : Z)
    (custom_path load_prev : option string) (valid_loss : option spec_float)
    (run_epoch : nat → Epoch) (test : TestPass) : M Loop :=
  let! c := isdir (checkpoint_dir self) in
  do! (if c then ret () else makedirs (checkpoint_dir self)) in
  match Network self with
  | None => raise AttributeError
  | Some _ =>
      let! valid_loss_min := resolve_start self custom_path load_prev valid_loss in
      let! d := isdir (model_stats_dir self (exp_no self)) in
      do! (if d then ret () else makedirs (model_stats_dir self (exp_no self))) in
      let! st := train_loop self run_epoch (seq 1 (Z.to_nat n_epochs))
                   {| valid_loss_min := valid_loss_min;
                      improvements := 0; saved := [] |} in
      do! (if (improvements st =? 0)%nat
           then delete_file self (exp_no self) true else ret ()) in
      do! (if negb (improvements st =? 0)%nat
           then write_test_report self test else ret ()) in
      ret st
  end.

End Harness.

(** ** Vocabulary of the statements *)

(** The lines of a block, each closed by a newline and followed by [sep]. *)
Fixpoint block (sep : string) (lines : list string) : string :=
  match lines with
  | [] => ""
  | line :: rest => line +:+ nl +:+ sep +:+ block sep rest
  end.

(** What the claim promises for a block, a single line being a block of one
    line: a separator after each line when [continuing] is unset, and one
    separator after the whole block when it is set. *)
Definition promised_text (lines : py_lines) (continuing : bool) : string :=
  let l := match lines with Str s => [s] | Lst l => l end in
  if continuing then block "" l +:+ separator else block separator l.

(** What the code writes: as promised for a list, and for a single string
    without [continuing]; a single string with [continuing] gets no
    separator at all. *)
Definition written_text (lines : py_lines) (continuing : bool) : string :=
  match lines with
  | Lst l => if continuing then block "" l +:+ separator else block separator l
  | Str s => if continuing then s +:+ nl else s +:+ nl +:+ separator
  end.

Fixpoint plain (s : string) : bool :=
  match s with
  | "" => true
  | String c s' => negb (is_newline c) && plain s'
  end.

(** [s] has [n] characters in a row without a newline. *)
Definition has_run (n : nat) (s : string) : Prop :=
  ∃ a r b, s = a +:+ r +:+ b ∧ String.length r = n ∧ plain r = true.

Fixpoint matches (p : list atom) (m : string) : bool :=
  match p, m with
  | [], "" => true
  | a :: p', String c m' => atom_matches a c && matches p' m'
  | _, _ => false
  end.

(** Somewhere in [data], at the start of a line or not, the pattern [p] is
    matched and at least one more character follows on the same line. *)
Definition occurs (p : list atom) (data : string) : Prop :=
  ∃ a m c b, data = a +:+ m +:+ String c b
             ∧ matches p m = true ∧ c ≠ newline.

(** The lines of a text, split at the newlines. *)
Fixpoint lines_of_go (cur s : string) : list string :=
  match s with
  | "" => [cur]
  | String c s' =>
      if is_newline c then cur :: lines_of_go "" s'
      else lines_of_go (cur +:+ String c "") s'
  end.
Definition lines_of (s : string) : list string := lines_of_go "" s.

(** Some line of [data] starts with the same 15 characters as [new]. *)
Definition leading_prefix_matches (new data : string) : bool :=
  existsb (λ L, String.eqb (substring 0 15 L) (substring 0 15 new))
          (lines_of data).

(** The file system after the directory check that opens [write_data]. *)
Definition with_info_dir (self : Classifier) (fs : FS) : FS :=
  if bool_decide (Experiment_info_dir self ∈ dirs fs) then fs
  else mkFS (files fs)
            (dirs fs ∪ {[Experiment_info_dir self]}
             ∪ list_to_set (parents (Experiment_info_dir self))).

(** Objects for the examples: experiment 1 on a fresh output directory. *)
Definition demo_self : Classifier :=
  mkClassifier 1 cpu "resnet18" "C:\data" "C:\perf"
               None None None None None None None None None false.

Definition demo_fs : FS := mkFS ∅ {[ "C:\perf"; "C:\data" ]}.

Definition demo_log : string := "C:\perf\Exp_data\Test Report_1.txt".

(** Every character of [s] satisfies [P]. *)
Fixpoint all_chars (P : ascii → bool) (s : string) : bool :=
  match s with
  | "" => true
  | String c s' => P c && all_chars P s'
  end.


(** A stand-in for [str] on floats in the examples: sign, mantissa and
    binary exponent in decimal. *)
Definition demo_str_float (x : spec_float) : string :=
  match x with
  | S754_zero s => if s then "-0.0" else "0.0"
  | S754_infinity s => if s then "-inf" else "inf"
  | S754_nan => "nan"
  | S754_finite s m e =>
      (if s then "-" else "") +:+ pretty (Z.pos m) +:+ "e" +:+ pretty e
  end.

(** Binary64 values for the examples. *)
Definition b64 (m e : Z) : spec_float := binary_normalize 53 1024 m e false.
Definition f_0_5 : spec_float := b64 1 (-1).
Definition f_0_75 : spec_float := b64 3 (-2).
Definition f_0_01 : spec_float := b64 5764607523034235 (-59).
Definition f_0_1 : spec_float := b64 7205759403792794 (-56).

(** Experiment 1 after [load_data] and [load_model]: three classes, one
    linear layer on a ResNet-18. *)
Definition demo_ready (name : string) : Classifier :=
  {| exp_no := 1; device := cpu; Model_name := name;
     Dataset_dir := "C:\data"; Performance_dir := "C:\perf";
     classes := Some ["cat"; "dog"; "owl"];
     train_idx := Some [2; 0; 3]%nat; valid_idx := Some [1]%nat;
     test_len := Some 2%nat;
     TempNetwork := Some models_resnet18;
     Network := Some (mkNet models_resnet18 false [(512, 3)]);
     lr := None; optimizer := None; scheduler := None; criterion := false |}.

(** An output directory holding the report of experiment 1 and a
    checkpoint of an earlier experiment. *)
Definition demo_prev : string := "C:\perf\Checkpoints\resnet18_0.pth".

Definition demo_fs_prev : FS :=
  mkFS {[ demo_log := "Trained before" +:+ nl; demo_prev := "weights" ]}
       {[ "C:\perf"; "C:\data"; "C:\perf\Exp_data"; "C:\perf\Checkpoints" ]}.

(** Every epoch ends with the validation loss 0.5. *)
Definition demo_epochs (epoch : nat) : Epoch := mkEpoch f_0_5 f_0_01 "weights".

Definition demo_test : TestPass :=
  mkTestPass f_0_5 [Some (f_0_75, f_0_75); None; Some (f_0_5, f_0_75)]
             f_0_5 f_0_75.

(** The characters of [str] on a float: digits, sign, point, exponent
    mark and the letters of [inf] and [nan]. *)
Definition is_float_char (c : ascii) : bool :=
  contains (String c "") "0123456789.e+-infa".



(** [a] is empty or ends with a newline: what follows starts a line. *)
Definition line_start (a : string) : Prop := a = "" ∨ ∃ a0, a = a0 +:+ nl.

(** [data] has a line that starts with [header] followed by the characters
    of a float. *)
Definition rec_line (header data : string) : Prop :=
  ∃ a t b, data = a +:+ header +:+ t +:+ b
           ∧ line_start a ∧ all_chars is_float_char t = true.

Definition header1 : string := "Previous Min Valid loss: ".
Definition header2 : string := "Minimum Valid loss: ".
Definition header3 : string := "Best Learning rate that gave min valid loss: ".

(** The text of the log holds the three lines of the best-metric record. *)
Definition has_record (data : string) : Prop :=
  rec_line header1 data ∧ rec_line header2 data ∧ rec_line header3 data.

(** What the loop of [train] can rely on between two epochs: before the
    first improvement the report, if there is one, ends with a newline;
    after it the report holds the record and the checkpoint exists. *)
Definition log_inv (self : Classifier) (st : Loop) (fs : FS) : Prop :=
  match improvements st with
  | O => line_start (default "" (files fs !! log_path self (exp_no self)))
  | S _ =>
      (∃ data, files fs !! log_path self (exp_no self) = Some data
               ∧ has_record data)
      ∧ is_Some (files fs !! checkpoint_path self)
  end.

(** The pattern of a text without metacharacters. *)
Fixpoint lits (s : string) : list atom :=
  match s with
  | "" => []
  | String c s' => Lit c :: lits s'
  end.

Definition ident2 : string := "Minimum Valid l".


(** The file system after [if not os.path.isdir(d): os.makedirs(d)]. *)
Definition with_dir (d : string) (fs : FS) : FS :=
  if bool_decide (d ∈ dirs fs) then fs
  else mkFS (files fs) (dirs fs ∪ {[d]} ∪ list_to_set (parents d)).


(** The checkpoint [train] is asked to load, if any. *)
Definition start_checkpoint (custom_path load_prev : option string)
  : option string :=
  match custom_path with
  | Some p => Some p
  | None => load_prev
  end.



(** The loss goes from 0.75 in epoch 1 to 0.5 from epoch 2 on. *)
Definition demo_two_steps (epoch : nat) : Epoch :=
  match epoch with
  | 1%nat => mkEpoch f_0_75 f_0_01 "weights 1"
  | _ => mkEpoch f_0_5 f_0_01 "weights 2"
  end.



(** ** [un_normalize], [save_model] and the handler of an interrupted [train] *)

(** The channel statistics [load_data] normalizes with. *)
Definition means : list Q := [485 # 1000; 456 # 1000; 406 # 1000]%Q.
Definition stdevs : list Q := [229 # 1000; 224 # 1000; 225 # 1000]%Q.

(** [transforms.Normalize(mean, std)] on an image given as its channels,
    each the list of its values: [(x - mean[c]) / std[c]].  The arithmetic
    is exact, the floats standing for the rationals they are written as.
    [None] is the error torchvision raises, for a zero in [std] or for
    lists that do not have one entry per channel (lists of one entry, which
    torchvision broadcasts, do not occur in the code). *)
Definition Normalize (mean std : list Q) (img : list (list Q))
  : option (list (list Q)) :=
  if existsb (λ s, Qeq_bool s 0) std then None
  else if negb ((length mean =? length img)%nat && (length std =? length img)%nat)
  then None
  else Some (zip_with (λ ms channel, map (λ x, ((x - ms.1) / ms.2)%Q) channel)
                      (zip mean std) img).

Definition un_normalize (img : list (list Q)) : option (list (list Q)) :=
  let means := map (λ m, (m * -1)%Q) means in
  let stdevs := map (λ s, (1 / s)%Q) stdevs in
  Normalize means stdevs img.

Section Inference.

(** What [torch.save] serializes a module to. *)
Variable pickle : Net → string.

Definition save_model (self : Classifier) (save : bool) : M unit :=
  if save then
    let path_name := Performance_dir self +:+ "\" +:+ "whole_model" in
    let! d := isdir path_name in
    do! (if d then ret () else makedirs path_name) in
    match Network self with
    | None => raise AttributeError
    | Some net =>
        write_file (path_name +:+ "\Complete_model_" +:+ pretty (exp_no self)
                    +:+ ".pth")
                   (pickle net)
    end
  else ret ().

End Inference.


(** ** Vocabulary of the further properties *)


(** The lines of a list written by one call each, in order. *)
Fixpoint write_singles (self : Classifier) (exp_no : Z) (lines : list string)
  : M unit :=
  match lines with
  | [] => ret ()
  | line :: rest =>
      do! write_data self (Str line) exp_no false false in
      write_singles self exp_no rest
  end.

(** A character that stands for itself in a regular expression. *)
Definition is_literal (c : ascii) : bool :=
  negb (is_meta c) && negb (Ascii.eqb c "."%char).


(** What a normalized value comes back as, for a channel of mean [m] and
    deviation [s]. *)
Definition off_by (m s x : Q) : Q := (x - m * (1 - s))%Q.

(** The file [save_model] writes for experiment [e] under [perf]. *)
Definition whole_model_path (perf : string) (e : Z) : string :=
  perf +:+ "\whole_model\Complete_model_" +:+ pretty e +:+ ".pth".

(** * Properties *)

(** ** Strings *)

Lemma app_nil_r (s : string) : s +:+ "" = s.
Proof. induction s as [|c s IH]; simpl; [done | by rewrite IH]. Qed.

Lemma app_assoc (a b c : string) : (a +:+ b) +:+ c = a +:+ (b +:+ c).
Proof. induction a as [|x a IH]; simpl; [done | by rewrite IH]. Qed.

Lemma length_app (a b : string) :
  String.length (a +:+ b) = (String.length a + String.length b)%nat.
Proof. induction a as [|x a IH]; simpl; [done | by rewrite IH]. Qed.

Lemma ascii_eqb_true (a b : ascii) : Ascii.eqb a b = true ↔ a = b.
Proof. apply Ascii.eqb_eq. Qed.

Lemma ascii_eqb_false (a b : ascii) : Ascii.eqb a b = false ↔ a ≠ b.
Proof. apply Ascii.eqb_neq. Qed.

Lemma starts_with_spec (p s : string) :
  starts_with p s = true ↔ ∃ r, s = p +:+ r.
Proof.
  revert s. induction p as [|a p IH]; intros s; simpl.
  - split; [eauto | done].
  - destruct s as [|b s].
    + split; [done | by intros [r ?]].
    + rewrite andb_true_iff, ascii_eqb_true, IH. split.
      * intros [-> [r ->]]. eauto.
      * intros [r Hr]. injection Hr as -> ->. eauto.
Qed.

Lemma starts_with_app (p r : string) : starts_with p (p +:+ r) = true.
Proof. apply starts_with_spec. eauto. Qed.

Lemma contains_spec (p s : string) :
  contains p s = true ↔ ∃ a b, s = a +:+ p +:+ b.
Proof.
  induction s as [|c s IH]; simpl.
  - rewrite orb_false_r, starts_with_spec. split.
    + intros [r Hr]. by exists "", r.
    + intros [a [b Hab]]. destruct a; [by exists b | done].
  - rewrite orb_true_iff, starts_with_spec, IH. split.
    + intros [[r Hr] | [a [b Hab]]].
      * by exists "", r.
      * exists (String c a), b. by rewrite Hab.
    + intros [[|x a] [b Hab]]; simpl in Hab.
      * left. eauto.
      * right. injection Hab as -> ->. eauto.
Qed.

Lemma contains_app (a p b : string) : contains p (a +:+ p +:+ b) = true.
Proof. apply contains_spec. eauto. Qed.

Lemma drop_chars_app (a b : string) : drop_chars (String.length a) (a +:+ b) = b.
Proof. induction a as [|x a IH]; simpl; [by destruct b | done]. Qed.


(** ** The text an append writes *)

Lemma write_each_block (continuing : bool) (lines : list string) (tfile : string) :
  write_each continuing lines tfile
  = tfile +:+ block (if continuing then "" else separator) lines.
Proof.
  revert tfile. induction lines as [|line rest IH]; intros tfile; simpl.
  - by rewrite app_nil_r.
  - rewrite IH. destruct continuing; simpl; by rewrite !app_assoc.
Qed.

Lemma appended_text_written (lines : py_lines) (continuing : bool) :
  appended_text lines continuing = written_text lines continuing.
Proof.
  destruct lines as [s|l]; simpl.
  - destruct continuing; [done | by rewrite app_assoc].
  - rewrite write_each_block. by destruct continuing.
Qed.

Lemma written_text_promised_list (l : list string) (continuing : bool) :
  written_text (Lst l) continuing = promised_text (Lst l) continuing.
Proof. done. Qed.

Lemma written_text_promised_unset (lines : py_lines) :
  written_text lines false = promised_text lines false.
Proof.
  destruct lines; cbn [promised_text written_text block]; [|done].
  by rewrite (app_nil_r separator).
Qed.

Lemma write_data_makes_dir (self : Classifier) (fs : FS) :
  ∃ fs', (let! d := isdir (Experiment_info_dir self) in
          if d then ret () else makedirs (Experiment_info_dir self)) fs
         = (Ok (), fs')
         ∧ files fs' = files fs
         ∧ Experiment_info_dir self ∈ dirs fs'
         ∧ dirs fs ⊆ dirs fs'.
Proof.
  unfold bind, isdir. case_bool_decide as Hd; simpl.
  - exists fs. by repeat split.
  - eexists. split; [done |]. simpl. repeat split; set_solver.
Qed.

Lemma write_data_append_eq (self : Classifier) (lines : py_lines) (exp_no : Z)
    (continuing : bool) (fs : FS) :
  ∃ fs', write_data self lines exp_no continuing false fs = (Ok (), fs')
    ∧ files fs' = <[log_path self exp_no :=
                     default "" (files fs !! log_path self exp_no)
                     +:+ written_text lines continuing]> (files fs)
    ∧ Experiment_info_dir self ∈ dirs fs'
    ∧ dirs fs ⊆ dirs fs'.
Proof.
  destruct (write_data_makes_dir self fs) as (fs1 & H1 & Hf & Hd & Hsub).
  unfold write_data. unfold bind in *.
  destruct (isdir (Experiment_info_dir self) fs) as [[d|e] fs0]; [|done].
  destruct ((if d then ret () else makedirs (Experiment_info_dir self)) fs0)
    as [[[]|e] fs2]; [|done].
  injection H1 as ->. simpl. eexists. split; [done |]. simpl.
  by rewrite appended_text_written, Hf.
Qed.

(** ** The two searches of the replace mode *)

Lemma is_newline_false (c : ascii) : is_newline c = false ↔ c ≠ newline.
Proof. apply ascii_eqb_false. Qed.

Lemma take_plain_spec (n : nat) (s r : string) :
  take_plain n s = Some r
  ↔ (∃ b, s = r +:+ b) ∧ String.length r = n ∧ plain r = true.
Proof.
  revert s r. induction n as [|n IH]; intros s r; simpl.
  - split.
    + intros [= <-]. eauto.
    + intros (_ & Hl & _). by destruct r.
  - destruct s as [|c s].
    + split; [done |]. intros ([b Hb] & Hl & _). by destruct r.
    + destruct (is_newline c) eqn:Hc.
      * split; [done |]. intros ([b Hb] & Hl & Hp).
        destruct r as [|x r]; [done |]. simpl in *. injection Hb as <- ->.
        by rewrite Hc in Hp.
      * destruct (take_plain n s) as [r'|] eqn:Hr'; simpl.
        -- apply IH in Hr' as ([b ->] & Hl & Hp). split.
           ++ intros [= <-]. simpl. rewrite Hc, Hp, Hl. eauto.
           ++ intros ([b' Hb'] & Hl' & Hp').
              destruct r as [|x r]; [done |]. simpl in *.
              injection Hb' as <- Hb'. f_equal.
              assert (take_plain n (r' +:+ b) = Some r) as Hr.
              { apply IH. rewrite Hb'. apply andb_true_iff in Hp'.
                split; [eauto | split; [lia | tauto]]. }
              assert (take_plain n (r' +:+ b) = Some r') as Hr2.
              { apply IH. eauto. }
              congruence.
        -- split; [done |]. intros ([b' Hb'] & Hl' & Hp').
           destruct r as [|x r]; [done |]. simpl in *.
           injection Hb' as <- ->. apply andb_true_iff in Hp'.
           assert (take_plain n (r +:+ b') = Some r) as Hr.
           { apply IH. split; [eauto | split; [lia | tauto]]. }
           congruence.
Qed.

Lemma re_first_run_Some (n : nat) (s r : string) :
  re_first_run n s = Some r →
  ∃ a b, s = a +:+ r +:+ b ∧ String.length r = n ∧ plain r = true.
Proof.
  induction s as [|c s IH]; simpl.
  - destruct (take_plain n "") as [r'|] eqn:Hr; [|done].
    intros [= ->]. apply take_plain_spec in Hr as ([b ->] & ? & ?).
    by exists "", b.
  - destruct (take_plain n (String c s)) as [r'|] eqn:Hr.
    + intros [= ->]. apply take_plain_spec in Hr as ([b Hb] & ? & ?).
      exists "", b. by rewrite Hb.
    + intros (a & b & -> & ? & ?)%IH. by exists (String c a), b.
Qed.

Lemma re_first_run_head (n : nat) (s r : string) :
  take_plain n s = Some r → re_first_run n s = Some r.
Proof. intros H. destruct s; simpl in *; by rewrite H. Qed.

Lemma re_findall_first_head (p : list atom) (s o : string) :
  match_ident_dotplus p s = Some o → re_findall_first p s = Some o.
Proof. intros H. destruct s; simpl in *; by rewrite H. Qed.

Lemma re_first_run_has_run (n : nat) (s : string) :
  is_Some (re_first_run n s) ↔ has_run n s.
Proof.
  split.
  - intros [r (a & b & ? & ? & ?)%re_first_run_Some]. by exists a, r, b.
  - intros (a & r & b & -> & Hl & Hp).
    induction a as [|c a IH]; simpl.
    + exists r. apply re_first_run_head, take_plain_spec. eauto.
    + destruct (take_plain n (String c (a +:+ r +:+ b))); eauto.
Qed.

Lemma match_here_spec (p : list atom) (s m r : string) :
  match_here p s = Some (m, r) ↔ s = m +:+ r ∧ matches p m = true.
Proof.
  revert s m r. induction p as [|a p IH]; intros s m r; simpl.
  - split.
    + by intros [= <- <-].
    + intros [-> Hm]. by destruct m.
  - destruct s as [|c s].
    + split; [done |]. intros [Hs Hm]. by destruct m.
    + destruct (atom_matches a c) eqn:Ha.
      * destruct (match_here p s) as [[m' r']|] eqn:Hp; simpl.
        -- apply IH in Hp as [-> Hm']. split.
           ++ intros [= <- <-]. simpl. by rewrite Ha, Hm'.
           ++ intros [Hs Hm]. destruct m as [|x m]; [done |]. simpl in *.
              injection Hs as <- Hs. apply andb_true_iff in Hm as [_ Hm].
              assert (match_here p (m' +:+ r') = Some (m, r)) as H1
                by (apply IH; eauto).
              assert (match_here p (m' +:+ r') = Some (m', r')) as H2
                by (apply IH; eauto).
              congruence.
        -- split; [done |]. intros [Hs Hm].
           destruct m as [|x m]; [done |]. simpl in *.
           injection Hs as <- ->. apply andb_true_iff in Hm as [_ Hm].
           assert (match_here p (m +:+ r) = Some (m, r)) as H1
             by (apply IH; eauto).
           congruence.
      * split; [done |]. intros [Hs Hm].
        destruct m as [|x m]; [done |]. simpl in *.
        injection Hs as <- ->. by rewrite Ha in Hm.
Qed.

Lemma line_rest_nonempty (r : string) :
  line_rest r ≠ "" ↔ ∃ c b, r = String c b ∧ c ≠ newline.
Proof.
  destruct r as [|c r]; simpl.
  - split; [done | by intros (? & ? & ? & ?)].
  - destruct (is_newline c) eqn:Hc.
    + split; [done |]. intros (c' & b & [= <- <-] & Hne).
      by apply is_newline_false in Hne; congruence.
    + apply is_newline_false in Hc. split; [eauto | done].
Qed.




Lemma match_ident_dotplus_is_Some (p : list atom) (s : string) :
  is_Some (match_ident_dotplus p s)
  ↔ ∃ m c b, s = m +:+ String c b ∧ matches p m = true ∧ c ≠ newline.
Proof.
  unfold match_ident_dotplus. split.
  - destruct (match_here p s) as [[m r]|] eqn:Hm; [|by intros [? ?]].
    apply match_here_spec in Hm as [-> Hm]. intros Hsome.
    assert (line_rest r ≠ "") as (c & b & -> & Hc)%line_rest_nonempty.
    { destruct (line_rest r); [by destruct Hsome | done]. }
    by exists m, c, b.
  - intros (m & c & b & -> & Hm & Hc).
    assert (match_here p (m +:+ String c b) = Some (m, String c b)) as ->
      by (by apply match_here_spec).
    assert (line_rest (String c b) ≠ "") as Hl
      by (apply line_rest_nonempty; eauto).
    destruct (line_rest (String c b)); [done | eauto].
Qed.

Lemma re_findall_first_occurs (p : list atom) (data : string) :
  is_Some (re_findall_first p data) ↔ occurs p data.
Proof.
  split.
  - induction data as [|x data IH]; simpl.
    + destruct (match_ident_dotplus p "") eqn:Hm; [|by intros [? ?]].
      intros _.
      destruct (proj1 (match_ident_dotplus_is_Some p "")) as (m & c & b & ? & ? & ?);
        [by rewrite Hm |].
      by exists "", m, c, b.
    + destruct (match_ident_dotplus p (String x data)) eqn:Hm.
      * intros _.
        destruct (proj1 (match_ident_dotplus_is_Some p (String x data)))
          as (m & c & b & Hs & ? & ?); [by rewrite Hm |].
        exists "", m, c, b. by rewrite Hs.
      * intros (a & m & c & b & -> & ? & ?)%IH.
        by exists (String x a), m, c, b.
  - intros (a & m & c & b & -> & Hm & Hc).
    assert (is_Some (match_ident_dotplus p (m +:+ String c b))) as [o Ho]
      by (apply match_ident_dotplus_is_Some; by exists m, c, b).
    induction a as [|x a IH]; simpl.
    + exists o. by apply re_findall_first_head.
    + destruct (match_ident_dotplus p (String x (a +:+ m +:+ String c b))); eauto.
Qed.


(** ** [write_data] *)

Lemma with_info_dir_files (self : Classifier) (fs : FS) :
  files (with_info_dir self fs) = files fs.
Proof. unfold with_info_dir. by case_bool_decide. Qed.

Lemma write_data_replace_eq (self : Classifier) (s : string) (exp_no : Z)
    (continuing : bool) (fs : FS) :
  write_data self (Str s) exp_no continuing true fs =
  let fs1 := with_info_dir self fs in
  match re_first_run 15 s with
  | None => (Raise IndexError, fs1)
  | Some ident =>
      match files fs !! log_path self exp_no with
      | None => (Raise FileNotFoundError, fs1)
      | Some data =>
          match compile_ident ident with
          | None => (Raise ReOutsideFragment, fs1)
          | Some p =>
              match re_findall_first p data with
              | None => (Raise IndexError, fs1)
              | Some old =>
                  (Ok (), mkFS (<[log_path self exp_no := str_replace old s data]>
                                  (files fs)) (dirs fs1))
              end
          end
      end
  end.
Proof.
  unfold write_data, with_info_dir, bind, isdir.
  case_bool_decide; simpl.
  - destruct (re_first_run 15 s); [|done]. unfold read_file.
    destruct (files fs !! log_path self exp_no); [|done].
    destruct (compile_ident _); [|done]. by destruct (re_findall_first _ _).
  - destruct (re_first_run 15 s); [|done]. unfold read_file. simpl.
    destruct (files fs !! log_path self exp_no); [|done].
    destruct (compile_ident _); [|done]. by destruct (re_findall_first _ _).
Qed.

(** C9, as the code has it.  An append never fails and adds to the log
    exactly [written_text]: for a list of lines, a separator after each
    line when [continuing] is unset and a single separator after the
    block when it is set; for a single string, the line and a separator
    when [continuing] is unset and the line alone, with no separator at
    all, when it is set. *)
Theorem write_data_append_text (self : Classifier) (lines : py_lines)
    (exp_no : Z) (continuing : bool) (fs : FS) :
  ∃ fs', write_data self lines exp_no continuing false fs = (Ok (), fs')
    ∧ files fs' !! log_path self exp_no
      = Some (default "" (files fs !! log_path self exp_no)
              +:+ match lines, continuing with
                  | Lst l, false => block separator l
                  | Lst l, true => block "" l +:+ separator
                  | Str s, false => s +:+ nl +:+ separator
                  | Str s, true => s +:+ nl
                  end).
Proof.
  destruct (write_data_append_eq self lines exp_no continuing fs)
    as (fs' & Hw & Hf & _).
  exists fs'. split; [done |]. rewrite Hf, lookup_insert_eq.
  by destruct lines, continuing.
Qed.

(** C9, as stated, fails for a single string with [continuing] set: the
    first line of the best-metric record is written without any
    separator, where the claim promises one after the block. *)
Lemma write_data_continuing_string_no_separator :
  let line := "Previous Min Valid loss: inf" in
  let fs' := (write_data demo_self (Str line) 1 true false demo_fs).2 in
  files fs' !! demo_log = Some (line +:+ nl)
  ∧ promised_text (Str line) true = line +:+ nl +:+ separator
  ∧ files fs' !! demo_log ≠ Some (promised_text (Str line) true)
  ∧ contains separator (line +:+ nl) = false.
Proof. vm_compute. by repeat split. Qed.

(** C3, as the code has it.  For a single string, the replace mode raises
    [FileNotFoundError] exactly when the new line has a run of 15
    characters without a newline and the log file is missing; it raises
    [IndexError] (an empty list indexed at 0) exactly when the new line has
    no such run, or the log exists and nowhere in its text, at a line start
    or not, the identifier is followed by one more character of the same
    line; and it returns exactly when such an occurrence exists. *)
Theorem write_data_replace_raises (self : Classifier) (s : string)
    (exp_no : Z) (continuing : bool) (fs : FS) :
  let r := (write_data self (Str s) exp_no continuing true fs).1 in
  (r = Raise FileNotFoundError
   ↔ has_run 15 s ∧ files fs !! log_path self exp_no = None)
  ∧ (r = Raise IndexError
     ↔ ¬ has_run 15 s
       ∨ ∃ ident p data,
           re_first_run 15 s = Some ident
           ∧ files fs !! log_path self exp_no = Some data
           ∧ compile_ident ident = Some p ∧ ¬ occurs p data)
  ∧ (r = Ok ()
     ↔ ∃ ident p data,
         re_first_run 15 s = Some ident
         ∧ files fs !! log_path self exp_no = Some data
         ∧ compile_ident ident = Some p ∧ occurs p data).
Proof.
  rewrite write_data_replace_eq. cbv zeta.
  pose proof (re_first_run_has_run 15 s) as Hrun.
  destruct (re_first_run 15 s) as [ident|] eqn:Hid.
  - assert (has_run 15 s) as Hhas by (apply Hrun; eauto).
    destruct (files fs !! log_path self exp_no) as [data|] eqn:Hlog.
    + destruct (compile_ident ident) as [p|] eqn:Hp.
      * pose proof (re_findall_first_occurs p data) as Hocc.
        destruct (re_findall_first p data) as [old|] eqn:Hold; simpl.
        -- assert (occurs p data) by (apply Hocc; eauto).
           split; [|split].
           ++ split; [done | by intros [_ ?]].
           ++ split; [done |].
              intros [? | (? & ? & ? & ? & ? & ? & ?)]; [done |].
              by simplify_eq.
           ++ split; [|done]. intros _. by exists ident, p, data.
        -- assert (¬ occurs p data) by (intros [? ?]%Hocc; done).
           split; [|split].
           ++ split; [done | by intros [_ ?]].
           ++ split; [|done]. intros _. right. by exists ident, p, data.
           ++ split; [done |]. intros (? & ? & ? & ? & ? & ? & ?).
              by simplify_eq.
      * simpl. split; [|split].
        -- split; [done | by intros [_ ?]].
        -- split; [done |].
           intros [? | (? & ? & ? & ? & ? & ? & ?)]; [done | by simplify_eq].
        -- split; [done |]. intros (? & ? & ? & ? & ? & ? & ?).
           by simplify_eq.
    + simpl. split; [|split].
      * done.
      * split; [done |].
        intros [? | (? & ? & ? & ? & ? & ? & ?)]; [done | by simplify_eq].
      * split; [done |]. intros (? & ? & ? & ? & ? & ? & ?). by simplify_eq.
  - assert (¬ has_run 15 s) as Hno by (intros [? ?]%Hrun; done).
    simpl. split; [|split].
    + split; [done | by intros [? _]].
    + split; [by left | done].
    + split; [done |]. intros (? & ? & ? & ? & ? & ? & ?). by simplify_eq.
Qed.

(** C3, as stated, fails: the search is not anchored at the start of a
    line.  Here no line of the log starts with the 15 characters of the new
    line, the claim wants an error, and the call returns, rewriting the
    tail of the line that names the custom checkpoint. *)
Lemma write_data_replace_matches_inside_line :
  let data := "Model Loaded from Custom path: C:\ckpt\Minimum Valid loss.pth"
              +:+ nl in
  let new := "Minimum Valid loss: 0.5" in
  let fs := mkFS {[ demo_log := data ]} {[ "C:\perf"; "C:\perf\Exp_data" ]} in
  let r := write_data demo_self (Str new) 1 false true fs in
  leading_prefix_matches new data = false
  ∧ is_Some (files fs !! demo_log)
  ∧ r.1 = Ok ()
  ∧ files r.2 !! demo_log
    = Some ("Model Loaded from Custom path: C:\ckpt\Minimum Valid loss: 0.5"
            +:+ nl).
Proof. vm_compute. repeat split; eauto. Qed.

(** ** The name of the log file *)









Lemma starts_with_app_same (p a b : string) :
  starts_with (p +:+ a) (p +:+ b) = starts_with a b.
Proof.
  induction p as [|c p IH]; simpl; [done |].
  by rewrite IH, Ascii.eqb_refl.
Qed.

Lemma eqb_app_same (p a b : string) :
  String.eqb (p +:+ a) (p +:+ b) = String.eqb a b.
Proof.
  induction p as [|c p IH]; simpl; [done |].
  by rewrite IH, Ascii.eqb_refl.
Qed.





(** ** [delete_file] *)

Lemma remove_matching_spec (pat : string) (found : list string) (fs : FS) :
  ∃ fs', remove_matching pat found fs = (Ok (), fs')
    ∧ dirs fs' = dirs fs
    ∧ ∀ q, files fs' !! q
           = if bool_decide (q ∈ found) && contains pat q then None
             else files fs !! q.
Proof.
  revert fs. induction found as [|file rest IH]; intros fs; simpl.
  - exists fs. by repeat split.
  - unfold bind.
    destruct (contains pat file) eqn:Hc; simpl.
    + destruct (IH (mkFS (delete file (files fs)) (dirs fs)))
        as (fs' & -> & Hd & Hf).
      exists fs'. repeat split; [done |]. intros q. rewrite Hf. simpl.
      destruct (decide (q = file)) as [->|Hne].
      * rewrite Hc, lookup_delete_eq.
        rewrite (bool_decide_eq_true_2 (file ∈ file :: rest))
          by (apply elem_of_cons; by left).
        simpl. by destruct (bool_decide _).
      * rewrite lookup_delete_ne by done.
        by rewrite (bool_decide_ext (q ∈ rest) (q ∈ file :: rest))
          by (rewrite elem_of_cons; tauto).
    + destruct (IH fs) as (fs' & -> & Hd & Hf).
      exists fs'. repeat split; [done |]. intros q. rewrite Hf.
      destruct (decide (q = file)) as [->|Hne].
      * rewrite Hc, !andb_false_r. done.
      * by rewrite (bool_decide_ext (q ∈ rest) (q ∈ file :: rest))
          by (rewrite elem_of_cons; tauto).
Qed.

Lemma elem_of_glob_txt (d q : string) (fs : FS) :
  q ∈ filter (λ p, is_glob_txt d p = true) (map_to_list (files fs)).*1
  ↔ is_glob_txt d q = true ∧ is_Some (files fs !! q).
Proof.
  rewrite list_elem_of_filter, list_elem_of_fmap. split.
  - intros [? [[k v] [-> Hkv%elem_of_map_to_list]]]. eauto.
  - intros [? [v Hv]]. split; [done |]. exists (q, v).
    split; [done |]. by apply elem_of_map_to_list.
Qed.

(** [delete_file] step by step: the metrics directory goes first when
    asked for; then either no report at all is found, or every report whose
    path has [_<exp_no>] in it is removed and nothing else changes. *)
Lemma delete_file_spec (self : Classifier) (e : Z) (stats_delete : bool) (fs : FS) :
  let fs1 := if stats_delete then (rmtree (model_stats_dir self e) fs).2 else fs in
  let found := filter (λ p, is_glob_txt (Experiment_info_dir self) p = true)
                      (map_to_list (files fs1)).*1 in
  (found = [] ∧ delete_file self e stats_delete fs = (Raise FileNotFoundError, fs1))
  ∨ (found ≠ [] ∧
     ∃ fs', delete_file self e stats_delete fs = (Ok (), fs')
       ∧ dirs fs' = dirs fs1
       ∧ ∀ q, files fs' !! q
              = if is_glob_txt (Experiment_info_dir self) q
                   && contains ("_" +:+ pretty e) q
                then None else files fs1 !! q).
Proof.
  intros fs1 found.
  assert (delete_file self e stats_delete fs
          = match found with
            | [] => (Raise FileNotFoundError, fs1)
            | _ => remove_matching ("_" +:+ pretty e) found fs1
            end) as ->.
  { unfold delete_file, bind, glob_txt, found, fs1.
    destruct stats_delete; simpl.
    - destruct (rmtree (model_stats_dir self e) fs) as [[b|x] fs2] eqn:Hrm; simpl.
      + destruct (filter _ (map_to_list (files fs2)).*1) eqn:Hg; [done |].
        by rewrite Hg.
      + unfold rmtree in Hrm. by case_bool_decide.
    - destruct (filter _ (map_to_list (files fs)).*1) eqn:Hg; [done |].
      by rewrite Hg. }
  destruct found as [|f found'] eqn:Hfound; [by left | right].
  split; [done |].
  destruct (remove_matching_spec ("_" +:+ pretty e) (f :: found') fs1)
    as (fs' & -> & Hd & Hf).
  exists fs'. repeat split; [done |]. intros q. rewrite Hf.
  destruct (contains ("_" +:+ pretty e) q); [|by rewrite !andb_false_r].
  rewrite !andb_true_r. case_bool_decide as Hq.
  - rewrite <- Hfound in Hq. apply elem_of_glob_txt in Hq as [-> _]. done.
  - destruct (is_glob_txt (Experiment_info_dir self) q) eqn:Hg; [|done].
    destruct (files fs1 !! q) eqn:Hl; [|done].
    exfalso. apply Hq. rewrite <- Hfound. apply elem_of_glob_txt. eauto.
Qed.


(** ** [setup_optimization] *)

Section Setup_properties.

Variable str_float : spec_float → string.


End Setup_properties.


(** C2 fails on the code: the assignment of the SGD optimizer and that of
    the plateau scheduler are not under an [else], so they overwrite what
    the names ['adam'] and ['StepLR'] have just selected. *)
Theorem setup_optimization_adam_StepLR_overwritten :
  ∃ self' fs',
    setup_optimization demo_str_float (demo_ready "resnet18")
      "adam" "StepLR" f_0_01 f_0_1 f_0_1 5 30 f_0_1 demo_fs
    = (Ok self', fs')
    ∧ optimizer self' = Some (optim_SGD f_0_01)
    ∧ scheduler self'
      = Some (ReduceLROnPlateau (optim_SGD f_0_01) f_0_1 5 f_0_1).
Proof. eexists _, _. vm_compute. repeat split. Qed.

(** ** [__init__] and [load_model] *)

Lemma init_unknown_model (exp_no : Z) (model_to_train dataset_dir performance_dir : string)
    (gpu : option bool) (fs : FS) :
  model_to_train ∉ Model_names →
  init exp_no model_to_train dataset_dir performance_dir gpu fs
  = (Raise ModelNotFoundError, fs).
Proof.
  intros H. unfold init. by rewrite bool_decide_eq_false_2.
Qed.

Lemma pretrained_resnet18_50 (self : Classifier) :
  (Model_name self = "resnet18" → pretrained self = Some models_resnet18)
  ∧ (Model_name self = "resnet50" → pretrained self = Some models_resnet50).
Proof. unfold pretrained. split; by intros ->. Qed.

(** C6 fails on the code for two of the four names: ['resnet101'] loads a
    VGG-16 and ['resnet152'] loads a ResNet-101. *)
Theorem load_model_resnet101_resnet152 :
  (∃ self' fs',
     load_model (demo_ready "resnet101") None 1 None demo_fs = (Ok self', fs')
     ∧ TempNetwork self' = Some models_vgg16
     ∧ backbone <$> Network self' = Some models_vgg16)
  ∧ (∃ self' fs',
       load_model (demo_ready "resnet152") None 1 None demo_fs = (Ok self', fs')
       ∧ TempNetwork self' = Some models_resnet101
       ∧ backbone <$> Network self' = Some models_resnet101).
Proof. split; eexists _, _; vm_compute; repeat split. Qed.

(** ** [load_data] *)





(** Outside the fractions the slices clip: with [valid_size] 2 all five
    indices go to validation, not ten; with -1/2 the last three do. *)
Lemma split_indices_not_a_fraction :
  split_point 2 5 = 10
  ∧ split_indices (@List.rev nat) 2 5 = ([], [4; 3; 2; 1; 0]%nat)
  ∧ split_point (-1 # 2) 5 = -3
  ∧ split_indices (@List.rev nat) (-1 # 2) 5 = ([2; 1; 0]%nat, [4; 3]%nat).
Proof. vm_compute. by repeat split. Qed.


(** ** The start of [train] *)

(** C5 fails on the code for a previous checkpoint.  Resuming from one
    without the prior-best loss is not refused: the running minimum is
    [None], the first epoch is trained and validated, and the comparison of
    its loss with [None] raises a [TypeError]; nothing is purged.  With no
    epoch to run the call even returns.  The custom-checkpoint path, next
    to it, makes the check and raises the configuration error. *)
Theorem train_load_prev_without_valid_loss :
  let self := demo_ready "resnet18" in
  let resumed n := train demo_str_float self n None (Some demo_prev) None
                     demo_epochs demo_test demo_fs_prev in
  let custom := train demo_str_float self 1 (Some demo_prev) None None
                  demo_epochs demo_test demo_fs_prev in
  (resumed 1).1 = Raise TypeError
  ∧ is_Some (files (resumed 1).2 !! demo_log)
  ∧ (resumed 0).1 = Ok (mkLoop None 0 [])
  ∧ custom.1 = Raise IOError
  ∧ files custom.2 !! demo_log = None.
Proof. vm_compute. repeat split; eauto. Qed.

(** ** [str.replace] *)

Lemma replace_go_skip (old new : string) (k : nat) (data : string) :
  replace_go old new k data = replace_go old new 0 (drop_chars k data).
Proof.
  revert k. induction data as [|c data IH]; intros [|k]; simpl; done.
Qed.

Lemma replace_match (old new r : string) :
  old ≠ "" →
  replace_go old new 0 (old +:+ r) = new +:+ replace_go old new 0 r.
Proof.
  intros Hne. destruct old as [|c old]; [done |].
  change (String c old +:+ r) with (String c (old +:+ r)).
  cbn [replace_go].
  change (String c (old +:+ r)) with (String c old +:+ r).
  rewrite starts_with_app, replace_go_skip.
  replace (String.length (String c old) - 1)%nat with (String.length old)
    by (simpl; lia).
  by rewrite drop_chars_app.
Qed.

Lemma replace_nomatch (old new : string) (c : ascii) (rest : string) :
  starts_with old (String c rest) = false →
  replace_go old new 0 (String c rest) = String c (replace_go old new 0 rest).
Proof. intros H. cbn [replace_go]. by rewrite H. Qed.


(** A text without a newline that starts in [a] and is followed there by a
    newline lies within [a]. *)
Lemma starts_with_before_newline (p a rest : string) :
  plain p = true →
  starts_with p (a +:+ String newline rest) = true →
  starts_with p a = true.
Proof.
  revert a. induction p as [|x p IH]; intros a Hp Hs; [by destruct a |].
  simpl in Hp. apply andb_true_iff in Hp as [Hx Hp].
  destruct a as [|y a]; simpl in *.
  - apply andb_true_iff in Hs as [->%ascii_eqb_true _]. done.
  - apply andb_true_iff in Hs as [-> Hs]. simpl. by apply IH.
Qed.

Lemma plain_head_not_newline (old x : string) :
  plain old = true → old ≠ "" → starts_with old (String newline x) = false.
Proof.
  intros Hp Hne. destruct old as [|c old]; [done |]. simpl in *.
  apply andb_true_iff in Hp as [Hc _]. apply negb_true_iff in Hc.
  unfold is_newline in Hc. by rewrite Hc.
Qed.


(** A stretch of text in which no copy of [old] starts is left alone. *)
Lemma replace_protected (old new L rest : string) :
  (∀ u v, L = u +:+ v → v ≠ "" → starts_with old (v +:+ rest) = false) →
  replace_go old new 0 (L +:+ rest) = L +:+ replace_go old new 0 rest.
Proof.
  induction L as [|c L IH]; intros H; [done |].
  change (String c L +:+ rest) with (String c (L +:+ rest)).
  rewrite replace_nomatch.
  - rewrite IH; [done |]. intros u v -> Hv. by apply (H (String c u)).
  - by apply (H "" (String c L)).
Qed.



(** ** The record lines under a replacement *)

Lemma plain_app (a b : string) : plain (a +:+ b) = plain a && plain b.
Proof.
  induction a as [|c a IH]; simpl; [done |]. by rewrite IH, andb_assoc.
Qed.

Lemma matches_lits (s m : string) : matches (lits s) m = true ↔ m = s.
Proof.
  revert m. induction s as [|c s IH]; intros [|x m]; simpl; try done.
  rewrite andb_true_iff, ascii_eqb_true, IH. split.
  - by intros [-> ->].
  - by intros [= -> ->].
Qed.

Lemma starts_with_longer (ident l y : string) :
  starts_with ident y = false → starts_with (ident +:+ l) y = false.
Proof.
  intros H. destruct (starts_with (ident +:+ l) y) eqn:E; [|done].
  apply starts_with_spec in E as [r ->].
  by rewrite app_assoc, starts_with_app in H.
Qed.









(** ** Comparison of floats *)




(** ** The improvement rule *)

Section Train_properties.

Variable str_float : spec_float → string.

(** [str] on a float yields only characters of the float notation. *)
Hypothesis str_float_chars : ∀ x, all_chars is_float_char (str_float x) = true.

Lemma line_start_app_nl (a b : string) : line_start (a +:+ b +:+ nl).
Proof. right. exists (a +:+ b). by rewrite app_assoc. Qed.

Lemma line_start_separator (a : string) : line_start (a +:+ separator).
Proof.
  right. exists (a +:+ nl +:+ dashes +:+ nl). unfold separator.
  by rewrite !app_assoc.
Qed.











(** ** [train] as a whole *)


Lemma ensure_dir_bind {A} (d : string) (k : M A) (fs : FS) :
  (let! c := isdir d in do! (if c then ret () else makedirs d) in k) fs
  = k (with_dir d fs).
Proof. unfold bind, isdir, with_dir. by case_bool_decide. Qed.

Lemma with_dir_files (d : string) (fs : FS) : files (with_dir d fs) = files fs.
Proof. unfold with_dir. by case_bool_decide. Qed.

Lemma with_dir_elem (d : string) (fs : FS) : d ∈ dirs (with_dir d fs).
Proof using Type. clear str_float_chars. unfold with_dir. case_bool_decide; [done | set_solver]. Qed.

Lemma with_dir_subseteq (d : string) (fs : FS) : dirs fs ⊆ dirs (with_dir d fs).
Proof using Type. clear str_float_chars. unfold with_dir. case_bool_decide; [done | set_solver]. Qed.



(** Whenever the start of [train] succeeds, the loop begins in a state the
    improvement rule applies to: the last thing the start did was to append
    a line and a separator to the report. *)
Lemma resolve_start_log_inv (self : Classifier) (custom_path load_prev : option string)
    (valid_loss : option spec_float) (fs fs' : FS) (m : option spec_float) :
  resolve_start self custom_path load_prev valid_loss fs = (Ok m, fs') →
  log_inv self (mkLoop m 0 [])
          (with_dir (model_stats_dir self (exp_no self)) fs').
Proof using Type.
  clear str_float_chars.
  assert (∀ line (k : M (option spec_float)) fs0,
            (do! write_data self (Str line) (exp_no self) false false in k) fs0
            = (Ok m, fs') →
            (∀ fs1, (k fs1).2 = fs1) →
            line_start (default "" (files fs' !! log_path self (exp_no self))))
    as Hw.
  { intros line k fs0 Hrun Hk.
    destruct (write_data_append_eq self (Str line) (exp_no self) false fs0)
      as (fs1 & Hw & Hf & _).
    unfold bind in Hrun. rewrite Hw in Hrun.
    assert (fs' = fs1) as -> by (rewrite <- (Hk fs1); by rewrite Hrun).
    rewrite Hf, lookup_insert_eq. cbn [written_text from_option].
    rewrite <- !app_assoc. apply line_start_separator. }
  intros Hrun. unfold log_inv. simpl. rewrite with_dir_files.
  unfold resolve_start in Hrun.
  destruct custom_path as [p|]; [|destruct load_prev as [p|]].
  - unfold bind at 1, read_file in Hrun.
    destruct (files fs !! p); [|done].
    destruct valid_loss as [v|].
    + by apply (Hw _ _ _ Hrun).
    + unfold bind in Hrun. by destruct (delete_file _ _ _ _) as [[[]|e] fs2].
  - unfold bind at 1, read_file in Hrun.
    destruct (files fs !! p); [|done]. by apply (Hw _ _ _ Hrun).
  - by apply (Hw _ _ _ Hrun).
Qed.










End Train_properties.

(** ** Examples of the runs *)





(** The scenario of the specification on the model: two epochs, the loss
    going down, give two writes of the checkpoint, one append and one
    replacement of the record. *)
Lemma train_two_improvements :
  let r := train demo_str_float (demo_ready "resnet18") 2 None None None
             demo_two_steps demo_test demo_fs in
  r.1 = Ok (mkLoop (Some f_0_5) 2 [1%nat; 2%nat])
  ∧ files r.2 !! checkpoint_path (demo_ready "resnet18") = Some "weights 2"
  ∧ contains ("Previous Min Valid loss: " +:+ demo_str_float f_0_75 +:+ nl
              +:+ "Minimum Valid loss: " +:+ demo_str_float f_0_5 +:+ nl)
             (default "" (files r.2 !! demo_log)) = true
  ∧ contains ("Minimum Valid loss: " +:+ demo_str_float f_0_75)
             (default "" (files r.2 !! demo_log)) = false.
Proof. vm_compute. by repeat split. Qed.





(** * Further properties of the code *)

(** ** Paths *)

Lemma app_inj_r (a b c : string) : a +:+ c = b +:+ c → a = b.
Proof.
  revert b. induction a as [|x a IH]; intros [|y b] H; simpl in H.
  - done.
  - exfalso. apply (f_equal String.length) in H. simpl in H.
    rewrite length_app in H. lia.
  - exfalso. apply (f_equal String.length) in H. simpl in H.
    rewrite length_app in H. lia.
  - injection H as -> H. f_equal. by apply IH.
Qed.

(** X1.  Two experiments have the same report file only if they have the
    same number. *)
Theorem log_path_inj (self : Classifier) (e e' : Z) :
  log_path self e = log_path self e' ↔ e = e'.
Proof.
  split; [|by intros ->]. unfold log_path, log_filename. intros H.
  apply (inj (String.append _)) in H. apply (inj (String.append _)) in H.
  apply (inj (String.append _)) in H. apply app_inj_r in H.
  by apply (inj pretty) in H.
Qed.

(** ** More on [write_data] *)

Lemma with_info_dir_elem (self : Classifier) (fs : FS) :
  Experiment_info_dir self ∈ dirs (with_info_dir self fs).
Proof.
  unfold with_info_dir. case_bool_decide; [done |]. simpl.
  apply elem_of_union_l, elem_of_union_r, elem_of_singleton. done.
Qed.

Lemma write_data_append_fs (self : Classifier) (lines : py_lines) (e : Z)
    (continuing : bool) (fs : FS) :
  write_data self lines e continuing false fs
  = (Ok (), mkFS (<[log_path self e :=
                     default "" (files fs !! log_path self e)
                     +:+ written_text lines continuing]> (files fs))
                 (dirs (with_info_dir self fs))).
Proof.
  unfold write_data, with_info_dir, bind, isdir.
  case_bool_decide; simpl; unfold append_file; simpl;
    by rewrite appended_text_written.
Qed.

Lemma with_info_dir_insert (self : Classifier) (fs : FS) (m : gmap string string) :
  dirs (with_info_dir self (mkFS m (dirs (with_info_dir self fs))))
  = dirs (with_info_dir self fs).
Proof.
  unfold with_info_dir at 1. simpl.
  by rewrite bool_decide_eq_true_2 by apply with_info_dir_elem.
Qed.

(** X2.  With [continuing] unset, writing a list of lines is the same as
    writing its lines one call after the other: same report, same
    directories. *)
Theorem write_data_list_as_singles (self : Classifier) (x : string)
    (l : list string) (e : Z) (fs : FS) :
  write_data self (Lst (x :: l)) e false false fs
  = write_singles self e (x :: l) fs.
Proof.
  assert (∀ l acc m d,
            write_singles self e l
              (mkFS (<[log_path self e := acc]> m) (dirs (with_info_dir self d)))
            = (Ok (), mkFS (<[log_path self e := acc +:+ block separator l]> m)
                           (dirs (with_info_dir self d)))) as Hgo.
  { clear. induction l as [|y l IH]; intros acc m d; simpl.
    - by rewrite app_nil_r.
    - unfold bind. rewrite write_data_append_fs. simpl.
      rewrite lookup_insert_eq, insert_insert_eq, with_info_dir_insert.
      cbn [from_option]. unfold id. rewrite IH. by rewrite !app_assoc. }
  cbn [write_singles]. unfold bind. rewrite !write_data_append_fs.
  rewrite Hgo. cbn [written_text block]. by rewrite !app_assoc.
Qed.




Lemma str_replace_nonempty (old new data : string) :
  old ≠ "" → str_replace old new data = replace_go old new 0 data.
Proof. by destruct old. Qed.




(** X4.  In replace mode a list of lines raises [TypeError] and a line
    without 15 characters in a row raises [IndexError]; in both cases no
    file is touched, whether the log exists or not. *)
Theorem write_data_replace_bad_line (self : Classifier) (e : Z)
    (continuing : bool) (fs : FS) :
  (∀ l, (write_data self (Lst l) e continuing true fs).1 = Raise TypeError
        ∧ files (write_data self (Lst l) e continuing true fs).2 = files fs)
  ∧ (∀ s, (String.length s < 15)%nat →
          (write_data self (Str s) e continuing true fs).1 = Raise IndexError
          ∧ files (write_data self (Str s) e continuing true fs).2 = files fs).
Proof.
  split.
  - intros l. unfold write_data, bind, isdir. by case_bool_decide.
  - intros s Hlen. rewrite write_data_replace_eq. cbv zeta.
    destruct (re_first_run 15 s) as [ident|] eqn:Hid.
    + apply re_first_run_Some in Hid as (a & b & -> & Hl & _).
      rewrite !length_app in Hlen. lia.
    + simpl. split; [done | apply with_info_dir_files].
Qed.

(** ** Append, then replace *)

Lemma replace_absent (old new s : string) :
  contains old s = false → replace_go old new 0 s = s.
Proof.
  induction s as [|c s IH]; [done |]. simpl contains.
  intros [Hs Hc]%orb_false_iff. rewrite replace_nomatch by done. by rewrite IH.
Qed.

Lemma contains_longer (ident l s : string) :
  contains ident s = false → contains (ident +:+ l) s = false.
Proof.
  intros H. destruct (contains (ident +:+ l) s) eqn:E; [|done].
  apply contains_spec in E as (a & b & ->).
  rewrite app_assoc, contains_app in H. done.
Qed.

Lemma contains_nil_r (p : string) : p ≠ "" → contains p "" = false.
Proof. by destruct p. Qed.

Lemma contains_across_newline (ident a b : string) :
  plain ident = true → ident ≠ "" →
  contains ident a = false → contains ident b = false →
  contains ident (a +:+ String newline b) = false.
Proof.
  intros Hp Hne Ha Hb. induction a as [|c a IH].
  - simpl. by rewrite plain_head_not_newline, Hb.
  - change (String c a +:+ String newline b) with (String c (a +:+ String newline b)).
    simpl contains in *. apply orb_false_iff in Ha as [Hs Ha].
    rewrite IH by done. rewrite orb_false_r.
    destruct (starts_with ident (String c (a +:+ String newline b))) eqn:E; [|done].
    change (String c (a +:+ String newline b)) with (String c a +:+ String newline b) in E.
    apply starts_with_before_newline in E; [congruence | done].
Qed.

(** No copy of a text without a newline starts in a text that does not
    hold it and ends with a newline, whatever follows. *)
Lemma no_start_before_newline (ident a rest : string) :
  plain ident = true → ident ≠ "" →
  contains ident a = false →
  ∀ u v, a +:+ nl = u +:+ v → v ≠ "" → starts_with ident (v +:+ rest) = false.
Proof.
  intros Hp Hne. induction a as [|c a IH]; intros Ha u v Huv Hv.
  - destruct u as [|x u]; simpl in Huv.
    + subst v. simpl. by apply plain_head_not_newline.
    + injection Huv as _ Huv. by destruct u, v.
  - simpl contains in Ha. apply orb_false_iff in Ha as [Hs Ha].
    destruct u as [|x u].
    + change ("" +:+ v) with v in Huv. subst v.
      destruct (starts_with ident ((String c a +:+ nl) +:+ rest)) eqn:E; [|done].
      rewrite app_assoc in E. simpl (nl +:+ rest) in E.
      apply starts_with_before_newline in E; [congruence | done].
    + simpl in Huv. injection Huv as _ Huv. by apply (IH Ha u v).
Qed.

Lemma starts_with_false_no_match (ident s : string) :
  starts_with ident s = false → match_ident_dotplus (lits ident) s = None.
Proof.
  intros H. unfold match_ident_dotplus.
  destruct (match_here (lits ident) s) as [[m r]|] eqn:E; [|done].
  apply match_here_spec in E as [-> ->%matches_lits].
  by rewrite starts_with_app in H.
Qed.

Lemma re_findall_first_skip (ident a rest : string) :
  (∀ u v, a = u +:+ v → v ≠ "" → starts_with ident (v +:+ rest) = false) →
  re_findall_first (lits ident) (a +:+ rest)
  = re_findall_first (lits ident) rest.
Proof.
  induction a as [|c a IH]; intros H; [done |].
  change (String c a +:+ rest) with (String c (a +:+ rest)).
  cbn [re_findall_first].
  rewrite starts_with_false_no_match by (by apply (H "" (String c a))).
  apply IH. intros u v -> Hv. by apply (H (String c u)).
Qed.

Lemma line_rest_before_newline (l x : string) :
  plain l = true → line_rest (l +:+ String newline x) = l.
Proof.
  induction l as [|c l IH]; simpl; [done |].
  intros [Hc Hl]%andb_true_iff. apply negb_true_iff in Hc. rewrite Hc.
  by rewrite IH.
Qed.

Lemma compile_ident_literal (s : string) :
  all_chars is_literal s = true → compile_ident s = Some (lits s).
Proof.
  induction s as [|c s IH]; simpl; [done |].
  unfold is_literal at 1. intros [[Hm Hd]%andb_true_iff Hs]%andb_true_iff.
  apply negb_true_iff in Hm, Hd. by rewrite Hm, Hd, IH.
Qed.

(** X5.  A line appended to a log that does not hold its 15-character
    identifier, and then replaced by a line with the same identifier, leaves
    the log as if the second line had been appended in the first place. *)
Theorem append_then_replace (self : Classifier) (ident l l' : string) (e : Z)
    (continuing : bool) (fs : FS) :
  let old := default "" (files fs !! log_path self e) in
  String.length ident = 15%nat →
  all_chars is_literal ident = true →
  plain (ident +:+ l) = true → l ≠ "" →
  line_start old → contains ident old = false → contains ident dashes = false →
  ∃ fs',
    (do! write_data self (Str (ident +:+ l)) e false false in
     write_data self (Str (ident +:+ l')) e continuing true) fs = (Ok (), fs')
    ∧ files fs' !! log_path self e
      = Some (old +:+ (ident +:+ l') +:+ nl +:+ separator)
    ∧ files fs'
      = files (write_data self (Str (ident +:+ l')) e false false fs).2.
Proof.
  intros old Hlen Hlit Hplain Hl Hstart Hold Hdash.
  rewrite plain_app in Hplain. apply andb_true_iff in Hplain as [Hpi Hpl].
  assert (ident ≠ "") as Hne by (by destruct ident).
  set (L := ident +:+ l). set (L' := ident +:+ l').
  assert (L ≠ "") as HneL by (unfold L; by destruct ident).
  assert (plain L = true) as HpL by (unfold L; by rewrite plain_app, Hpi, Hpl).
  set (tail := String newline separator).
  assert (contains ident tail = false) as Htail.
  { unfold tail, separator, nl. simpl.
    apply (contains_across_newline ident ""); [done.. | by apply contains_nil_r |].
    apply (contains_across_newline ident ""); [done.. | by apply contains_nil_r |].
    apply (contains_across_newline ident dashes); [done.. |].
    apply (contains_across_newline ident ""); [done.. | by apply contains_nil_r |].
    by apply contains_nil_r. }
  assert (∀ u v, old = u +:+ v → v ≠ "" → starts_with ident (v +:+ (L +:+ tail)) = false)
    as Hnostart.
  { destruct Hstart as [Ho | [a0 Ho]]; rewrite Ho.
    - intros u v Huv Hv. by destruct u, v.
    - apply no_start_before_newline; [done.. |].
      rewrite Ho in Hold. destruct (contains ident a0) eqn:E; [|done].
      apply contains_spec in E as (x & y & ->).
      rewrite !app_assoc, contains_app in Hold. done. }
  unfold bind. rewrite write_data_append_fs. cbn [written_text].
  fold old. rewrite write_data_replace_eq. cbv zeta. simpl files.
  assert (re_first_run 15 L' = Some ident) as ->.
  { apply re_first_run_head, take_plain_spec. unfold L'. eauto. }
  rewrite lookup_insert_eq, (compile_ident_literal ident) by done.
  change (nl +:+ separator) with tail.
  rewrite re_findall_first_skip by done.
  change (String newline separator) with tail.
  assert (re_findall_first (lits ident) (L +:+ tail) = Some L) as ->.
  { apply re_findall_first_head. unfold match_ident_dotplus.
    assert (match_here (lits ident) (L +:+ tail) = Some (ident, l +:+ tail)) as ->.
    { apply match_here_spec. split; [unfold L; by rewrite app_assoc |].
      by apply matches_lits. }
    unfold tail.
    rewrite line_rest_before_newline by done. by destruct l. }
  eexists. split; [done |]. simpl files. rewrite insert_insert_eq.
  assert (str_replace L L' (old +:+ (L +:+ tail)) = old +:+ L' +:+ tail)
    as ->.
  { rewrite str_replace_nonempty by done.
    rewrite replace_protected.
    2:{ intros u v Huv Hv. unfold L at 1. apply starts_with_longer.
        by apply (Hnostart u v). }
    rewrite replace_match by done.
    by rewrite replace_absent by (unfold L; by apply contains_longer). }
  split; [by rewrite lookup_insert_eq |].
  rewrite write_data_append_fs. simpl files. cbn [written_text]. by fold old.
Qed.

(** The second line of the record, written with 0.8 and rewritten with
    0.5, in a log that held the line of a fresh start. *)
Lemma append_then_replace_min_line :
  let fs := mkFS {[ demo_log := "Trained From beginning" +:+ nl +:+ separator ]}
                 {[ "C:\perf"; "C:\perf\Exp_data" ]} in
  let old := default "" (files fs !! log_path demo_self 1) in
  String.length ident2 = 15%nat
  ∧ all_chars is_literal ident2 = true
  ∧ plain (ident2 +:+ "oss: 0.8") = true ∧ "oss: 0.8" ≠ ""
  ∧ line_start old ∧ contains ident2 old = false ∧ contains ident2 dashes = false
  ∧ ∃ fs',
      (do! write_data demo_self (Str (ident2 +:+ "oss: 0.8")) 1 false false in
       write_data demo_self (Str (ident2 +:+ "oss: 0.5")) 1 false true) fs
      = (Ok (), fs')
      ∧ files fs' !! log_path demo_self 1
        = Some (old +:+ (ident2 +:+ "oss: 0.5") +:+ nl +:+ separator)
      ∧ files fs'
        = files (write_data demo_self (Str (ident2 +:+ "oss: 0.5")) 1 false false fs).2.
Proof.
  set (fs := mkFS _ _).
  assert (line_start (default "" (files fs !! log_path demo_self 1))) as Hstart.
  { right. exists ("Trained From beginning" +:+ nl +:+ nl +:+ dashes +:+ nl).
    vm_compute. reflexivity. }
  assert (contains ident2 (default "" (files fs !! log_path demo_self 1)) = false)
    as Hold by (vm_compute; reflexivity).
  assert ("oss: 0.8" ≠ "") as Hl by discriminate.
  split; [reflexivity |]. split; [reflexivity |]. split; [reflexivity |].
  split; [exact Hl |]. split; [exact Hstart |]. split; [exact Hold |].
  split; [reflexivity |].
  exact (append_then_replace demo_self ident2 "oss: 0.8" "oss: 0.5" 1 false fs
           eq_refl eq_refl eq_refl Hl Hstart Hold eq_refl).
Defined.

(** ** More on [delete_file] *)

Lemma rmtree_lookup (d q : string) (fs : FS) :
  files (rmtree d fs).2 !! q
  = if bool_decide (d ∈ dirs fs) && under d q then None else files fs !! q.
Proof.
  unfold rmtree. case_bool_decide; [|done]. simpl.
  destruct (under d q) eqn:Hu.
  - apply map_lookup_filter_None. right. intros x _. simpl. congruence.
  - destruct (files fs !! q) as [v|] eqn:E.
    + by apply map_lookup_filter_Some.
    + apply map_lookup_filter_None. by left.
Qed.


(** What [delete_file] leaves of the files, in one formula that covers the
    call that raises as well: without any report nothing matches. *)
Lemma delete_file_files (self : Classifier) (e : Z) (stats_delete : bool)
    (fs : FS) (q : string) :
  files (delete_file self e stats_delete fs).2 !! q
  = if stats_delete && bool_decide (model_stats_dir self e ∈ dirs fs)
       && under (model_stats_dir self e) q
    then None
    else if is_glob_txt (Experiment_info_dir self) q
            && contains ("_" +:+ pretty e) q
         then None
         else files fs !! q.
Proof.
  assert (∀ fs1 : FS,
    fs1 = (if stats_delete then (rmtree (model_stats_dir self e) fs).2 else fs) →
    files fs1 !! q
    = if stats_delete && bool_decide (model_stats_dir self e ∈ dirs fs)
         && under (model_stats_dir self e) q
      then None else files fs !! q) as Hfs1.
  { intros fs1 ->. destruct stats_delete; [|done]. by rewrite rmtree_lookup. }
  destruct (delete_file_spec self e stats_delete fs)
    as [[Hnil ->] | [_ (fs' & -> & _ & Hf)]]; cbn [snd].
  - pose proof (Hfs1 _ eq_refl) as H1. rewrite H1.
    destruct (_ && under _ q) eqn:Hc; [done |]. rewrite ?Hc in H1.
    destruct (is_glob_txt (Experiment_info_dir self) q) eqn:Hg; [|done].
    destruct (contains ("_" +:+ pretty e) q); [|done]. cbn [andb].
    etrans; [symmetry; exact H1 |].
    destruct (files _ !! q) as [v|] eqn:Hl; [|done]. exfalso.
    assert (q ∈ @nil string) as Hin; [|by apply elem_of_nil in Hin].
    rewrite <- Hnil. apply elem_of_glob_txt. split; [done | by exists v].
  - rewrite Hf, (Hfs1 _ eq_refl).
    destruct (_ && under _ q) eqn:Hc; [|done]. by destruct (_ && contains _ q).
Qed.

Lemma delete_file_dirs (self : Classifier) (e : Z) (stats_delete : bool) (fs : FS) :
  dirs (delete_file self e stats_delete fs).2
  = if stats_delete then dirs (rmtree (model_stats_dir self e) fs).2 else dirs fs.
Proof.
  destruct (delete_file_spec self e stats_delete fs)
    as [[_ ->] | [_ (fs' & -> & Hd & _)]]; cbn [snd]; [|rewrite Hd];
    by destruct stats_delete.
Qed.


Lemma checkpoint_not_report (self : Classifier) (e : Z) :
  is_glob_txt (Experiment_info_dir self) (checkpoint_path self) = false
  ∧ under (model_stats_dir self e) (checkpoint_path self) = false.
Proof.
  unfold is_glob_txt, under, checkpoint_path, checkpoint_dir,
    Experiment_info_dir, model_stats_dir.
  rewrite !app_assoc, eqb_app_same, !starts_with_app_same. done.
Qed.

(** X7.  [delete_file] never touches the checkpoint of the experiment,
    whether it returns or raises and with or without the metrics directory:
    a purge leaves the parameters of an earlier run where they are. *)
Theorem delete_file_keeps_checkpoint (self : Classifier) (e : Z)
    (stats_delete : bool) (fs : FS) :
  files (delete_file self e stats_delete fs).2 !! checkpoint_path self
  = files fs !! checkpoint_path self.
Proof.
  rewrite delete_file_files.
  destruct (checkpoint_not_report self e) as [-> ->].
  by rewrite andb_false_r.
Qed.

(** X8.  Purging twice is purging once: a second [delete_file] with the
    same arguments, whether the first one returned or raised, changes
    neither a file nor a directory. *)
Theorem delete_file_twice (self : Classifier) (e : Z) (stats_delete : bool)
    (fs : FS) :
  (delete_file self e stats_delete (delete_file self e stats_delete fs).2).2
  = (delete_file self e stats_delete fs).2.
Proof.
  set (fs1 := (delete_file self e stats_delete fs).2).
  assert (stats_delete = true → model_stats_dir self e ∉ dirs fs1) as Hgone.
  { intros ->. unfold fs1. rewrite delete_file_dirs. unfold rmtree.
    case_bool_decide as Hd; [|done]. simpl.
    intros [Hu _]%elem_of_filter. unfold under in Hu.
    by rewrite String.eqb_refl in Hu. }
  assert (dirs (delete_file self e stats_delete fs1).2 = dirs fs1) as Hdirs.
  { rewrite delete_file_dirs. destruct stats_delete; [|done].
    unfold rmtree. by rewrite bool_decide_eq_false_2 by auto. }
  assert (files (delete_file self e stats_delete fs1).2 = files fs1) as Hfiles.
  { apply map_eq. intros q. rewrite delete_file_files.
    assert (stats_delete && bool_decide (model_stats_dir self e ∈ dirs fs1)
            = false) as ->.
    { destruct stats_delete; [|done]. by rewrite bool_decide_eq_false_2 by auto. }
    cbn [andb].
    destruct (_ && contains _ q) eqn:Hc; [|done].
    unfold fs1. rewrite delete_file_files, Hc. by destruct (_ && under _ q). }
  destruct (delete_file self e stats_delete fs1).2 as [f d], fs1 as [f1 d1].
  simpl in *. by subst.
Qed.










(** ** More on [__init__] and [load_data] *)

(** X10.  [__init__] returns exactly when the model name is one of the four
    and both directories exist.  When it returns, the device is ['cuda']
    for every [gpu] other than [None] ([False] included), no model, data or
    optimizer is set yet, and the header has been appended to the report of
    the experiment, whatever the report held before.  When it raises, no
    file and no directory has changed; an unknown model name is reported
    before a missing directory. *)
Theorem init_outcome (e : Z) (name data perf : string) (gpu : option bool)
    (fs : FS) :
  (name ∈ Model_names ∧ perf ∈ dirs fs ∧ data ∈ dirs fs
   ∧ ∃ self fs' header,
       init e name data perf gpu fs = (Ok self, fs')
       ∧ exp_no self = e ∧ Model_name self = name
       ∧ Dataset_dir self = data ∧ Performance_dir self = perf
       ∧ (device self = cuda ↔ is_Some gpu)
       ∧ Network self = None ∧ classes self = None ∧ optimizer self = None
       ∧ files fs'
         = <[log_path self e :=
               default "" (files fs !! log_path self e) +:+ header]> (files fs)
       ∧ starts_with (hashes +:+ nl) header = true
       ∧ Experiment_info_dir self ∈ dirs fs')
  ∨ (∃ x, init e name data perf gpu fs = (Raise x, fs)
       ∧ ((x = ModelNotFoundError ∧ name ∉ Model_names)
          ∨ (x = FileNotFoundError ∧ name ∈ Model_names
             ∧ (perf ∉ dirs fs ∨ data ∉ dirs fs)))).
Proof.
  unfold init.
  destruct (decide (name ∈ Model_names)) as [Hname|Hname];
    [rewrite (bool_decide_eq_true_2 _ Hname)
    |rewrite (bool_decide_eq_false_2 _ Hname); right; eauto].
  cbn [negb]. unfold bind, isdir.
  destruct (decide (perf ∈ dirs fs)) as [Hperf|Hperf];
    [rewrite (bool_decide_eq_true_2 _ Hperf)
    |rewrite (bool_decide_eq_false_2 _ Hperf); right; eexists;
     split; [done |]; right; eauto].
  cbn [negb].
  destruct (decide (data ∈ dirs fs)) as [Hdata|Hdata];
    [rewrite (bool_decide_eq_true_2 _ Hdata)
    |rewrite (bool_decide_eq_false_2 _ Hdata); right; eexists;
     split; [done |]; right; eauto].
  cbn [negb].
  left. split; [done |]. split; [done |]. split; [done |].
  rewrite write_data_append_fs.
  eexists _, _, _. split; [done |]. cbn.
  split; [done |]. split; [done |]. split; [done |]. split; [done |].
  split; [destruct gpu; split; (done || by intros [? ?] || eauto) |].
  split; [done |]. split; [done |]. split; [done |].
  split; [done |]. split; [done |]. apply with_info_dir_elem.
Qed.





(** X12.  With a validation share of one or more nothing is refused: every
    index goes to the validation sampler, the training sampler is empty and
    [load_data] returns. *)
Theorem load_data_valid_size_at_least_one (self : Classifier) (valid_size : Q)
    (folders : ImageFolders) (shuffle : list nat → list nat) (fs : FS) :
  let N := train_data_len folders in
  (1 <= valid_size)%Q →
  shuffle (seq 0 N) ≡ₚ seq 0 N →
  Dataset_dir self +:+ "/train" ∈ dirs fs →
  Dataset_dir self +:+ "/test" ∈ dirs fs →
  ∃ self' fs',
    load_data self valid_size folders shuffle fs = (Ok self', fs')
    ∧ train_idx self' = Some []
    ∧ valid_idx self' = Some (shuffle (seq 0 N)).
Proof.
  intros N H1 Hperm Htrain Htest.
  assert (Z.of_nat N ≤ split_point valid_size N) as Hsplit.
  { unfold split_point. rewrite <- (Qfloor_Z (Z.of_nat N)) at 1.
    apply Qfloor_resp_le.
    rewrite <- (Qmult_1_l (inject_Z (Z.of_nat N))) at 1.
    apply Qmult_le_compat_r; [done |].
    change 0%Q with (inject_Z 0). rewrite <- Zle_Qle. lia. }
  assert (length (shuffle (seq 0 N)) = N) as Hlen by (by rewrite Hperm, length_seq).
  assert (split_indices shuffle valid_size N = ([], shuffle (seq 0 N))) as Hsi.
  { unfold split_indices, slice_from, slice_to, slice_bound.
    destruct (Z.ltb_spec (split_point valid_size N) 0); [lia |].
    rewrite drop_ge, take_ge by lia. done. }
  unfold load_data, bind, isdir.
  rewrite bool_decide_eq_true_2 by done. cbn [negb].
  rewrite bool_decide_eq_true_2 by done. cbn [negb].
  fold N. rewrite Hsi. cbv beta iota.
  match goal with
  | |- context [write_data ?s ?l ?e ?c false fs] =>
      rewrite (write_data_append_fs s l e c fs)
  end.
  eexists _, _. split; [done |]. done.
Qed.

(** Five training images and a validation share of 3/2. *)
Lemma load_data_valid_size_three_halves :
  let self := demo_ready "resnet18" in
  let folders := mkImageFolders 5 2 ["cat"; "dog"; "owl"] in
  let fs := mkFS ∅ {[ "C:\perf"; "C:\data"; "C:\data/train"; "C:\data/test" ]} in
  (1 <= 3 # 2)%Q
  ∧ @List.rev nat (seq 0 5) ≡ₚ seq 0 5
  ∧ Dataset_dir self +:+ "/train" ∈ dirs fs
  ∧ Dataset_dir self +:+ "/test" ∈ dirs fs
  ∧ ∃ self' fs',
      load_data self (3 # 2) folders (@List.rev nat) fs = (Ok self', fs')
      ∧ train_idx self' = Some []
      ∧ valid_idx self' = Some (@List.rev nat (seq 0 5)).
Proof.
  assert (1 <= 3 # 2)%Q as H1 by done.
  assert (@List.rev nat (seq 0 5) ≡ₚ seq 0 5) as Hperm
    by apply Permutation_sym, Permutation_rev.
  set (fs := mkFS ∅ {[ "C:\perf"; "C:\data"; "C:\data/train"; "C:\data/test" ]}).
  assert (Dataset_dir (demo_ready "resnet18") +:+ "/train" ∈ dirs fs) as Htrain
    by exact (proj1 (bool_decide_eq_true
                (Dataset_dir (demo_ready "resnet18") +:+ "/train" ∈ dirs fs)) eq_refl).
  assert (Dataset_dir (demo_ready "resnet18") +:+ "/test" ∈ dirs fs) as Htest
    by exact (proj1 (bool_decide_eq_true
                (Dataset_dir (demo_ready "resnet18") +:+ "/test" ∈ dirs fs)) eq_refl).
  split; [exact H1 |]. split; [exact Hperm |].
  split; [exact Htrain |]. split; [exact Htest |].
  exact (load_data_valid_size_at_least_one (demo_ready "resnet18") (3 # 2)
           (mkImageFolders 5 2 ["cat"; "dog"; "owl"]) (@List.rev nat) fs
           H1 Hperm Htrain Htest).
Defined.

(** ** More on [load_model] *)

Lemma hidden_layers_closed (features : list Z) (k i : nat) (inf : Z)
    (acc : list (Z * Z)) (fs : FS) :
  (i + k ≤ length features)%nat →
  hidden_layers features (seq i k) inf acc fs
  = (Ok (acc ++ zip (inf :: take k (drop i features)) (take k (drop i features))),
     fs).
Proof.
  revert i inf acc. induction k as [|k IH]; intros i inf acc Hlen.
  - simpl. by rewrite (right_id_L [] (++)).
  - destruct (lookup_lt_is_Some_2 features i) as [x Hx]; [lia |].
    cbn [seq hidden_layers]. unfold bind, index. rewrite Hx. unfold ret at 1.
    rewrite IH by lia. rewrite (drop_S _ _ _ Hx). cbn [take zip zip_with].
    by rewrite <- (assoc_L (++)).
Qed.

Lemma hidden_layers_short (features : list Z) (k i : nat) (inf : Z)
    (acc : list (Z * Z)) (fs : FS) :
  (length features < i + k)%nat → (0 < k)%nat →
  hidden_layers features (seq i k) inf acc fs = (Raise IndexError, fs).
Proof.
  revert i inf acc. induction k as [|k IH]; intros i inf acc Hlen Hk; [lia |].
  cbn [seq hidden_layers]. unfold bind, index.
  destruct (features !! i) as [x|] eqn:Hx; [|done]. unfold ret at 1.
  apply lookup_lt_Some in Hx. apply IH; lia.
Qed.

Lemma rev_lookup_0 {A} (l : list A) : rev l !! 0%nat = last l.
Proof.
  induction l as [|x l _] using rev_ind; [done |].
  by rewrite rev_unit, last_snoc.
Qed.


Lemma hidden_layers_fs (features : list Z) (nums : list nat) (inf : Z)
    (acc : list (Z * Z)) (fs : FS) :
  (hidden_layers features nums inf acc fs).2 = fs.
Proof.
  revert inf acc. induction nums as [|num rest IH]; intros inf acc; [done |].
  cbn [hidden_layers]. unfold bind, index.
  destruct (features !! num) as [x|]; [|done]. unfold ret at 1. apply IH.
Qed.

(** [load_model] on a classifier whose model name selects an architecture,
    more than one layer asked for and the hidden sizes given: the line is
    appended to the report, then the head is built. *)
Lemma load_model_unfold (self : Classifier) (freeze_conv_layers : option bool)
    (num_FCL : Z) (features : list Z) (temp : Architecture) (fs : FS) :
  pretrained self = Some temp → num_FCL ≠ 1 →
  ∃ fs1,
    files fs1 !! log_path self (exp_no self)
    = Some (default "" (files fs !! log_path self (exp_no self))
            +:+ ("Number of Fully connected layers: " +:+ pretty num_FCL)
            +:+ nl +:+ separator)
    ∧ load_model self freeze_conv_layers num_FCL (Some features) fs
      = match hidden_layers features (seq 0 (Z.to_nat (num_FCL - 1)))
                (last_in_features temp) [] fs1 with
        | (Ok hidden, _) =>
            match last features, classes self with
            | Some y, Some cl =>
                (Ok {| exp_no := exp_no self; device := device self;
                       Model_name := Model_name self;
                       Dataset_dir := Dataset_dir self;
                       Performance_dir := Performance_dir self;
                       classes := classes self;
                       train_idx := train_idx self; valid_idx := valid_idx self;
                       test_len := test_len self;
                       TempNetwork := Some temp;
                       Network :=
                         Some (mkNet temp
                                 match freeze_conv_layers with
                                 | Some true => true
                                 | _ => false
                                 end
                                 (hidden ++ [(y, Z.of_nat (length cl))]));
                       lr := lr self; optimizer := optimizer self;
                       scheduler := scheduler self;
                       criterion := criterion self |}, fs1)
            | Some _, None => (Raise AttributeError, fs1)
            | None, _ => (Raise IndexError, fs1)
            end
        | (Raise x, _) => (Raise x, fs1)
        end.
Proof.
  intros Hpre Hnum.
  exists (mkFS (<[log_path self (exp_no self) :=
                   default "" (files fs !! log_path self (exp_no self))
                   +:+ written_text
                         (Str ("Number of Fully connected layers: "
                               +:+ pretty num_FCL)) false]> (files fs))
               (dirs (with_info_dir self fs))).
  split; last first.
  - unfold load_model. rewrite Hpre. cbv zeta. unfold bind at 1.
    unfold ret at 1. unfold bind at 1. rewrite write_data_append_fs.
    rewrite (proj2 (Z.eqb_neq num_FCL 1) Hnum). cbn [negb].
    unfold bind at 1. unfold bind at 1.
    match goal with
    | |- context [hidden_layers ?f ?n ?i ?a ?fs1] =>
        pose proof (hidden_layers_fs f n i a fs1) as Hfs;
        destruct (hidden_layers f n i a fs1) as [[hidden|x] fs2]
    end; cbn [snd] in Hfs; subst fs2; [|done].
    unfold bind, index. rewrite rev_lookup_0.
    destruct (last features); [|done]. unfold ret at 1.
    destruct (classes self); done.
  - cbn [files written_text]. rewrite lookup_insert_eq. by rewrite !app_assoc.
Qed.



(** X14.  With fewer hidden sizes than the layers need, or with none at
    all, [load_model] fails with the [IndexError] of the list access.  The
    report is not purged on this path: it keeps the line
    ['Number of Fully connected layers'] the call has written. *)
Theorem load_model_too_few_features (self : Classifier)
    (freeze_conv_layers : option bool) (num_FCL : Z) (features : list Z)
    (temp : Architecture) (fs : FS) :
  pretrained self = Some temp → num_FCL ≠ 1 →
  (length features < Z.to_nat (num_FCL - 1))%nat ∨ features = [] →
  ∃ fs',
    load_model self freeze_conv_layers num_FCL (Some features) fs
    = (Raise IndexError, fs')
    ∧ files fs' !! log_path self (exp_no self)
      = Some (default "" (files fs !! log_path self (exp_no self))
              +:+ ("Number of Fully connected layers: " +:+ pretty num_FCL)
              +:+ nl +:+ separator).
Proof.
  intros Hpre Hnum Hshort.
  destruct (load_model_unfold self freeze_conv_layers num_FCL features temp fs
              Hpre Hnum) as (fs1 & Hlog & ->).
  exists fs1. split; [|done].
  destruct (lt_dec (length features) (Z.to_nat (num_FCL - 1))) as [Hlt|Hge].
  - by rewrite hidden_layers_short by lia.
  - destruct Hshort as [? | ->]; [lia |].
    rewrite hidden_layers_closed by lia. done.
Qed.

(** Three layers asked for, one hidden size given. *)
Lemma load_model_too_few_features_three_layers :
  let self := demo_ready "resnet18" in
  pretrained self = Some models_resnet18 ∧ 3 ≠ 1
  ∧ ((length [256] < Z.to_nat (3 - 1))%nat ∨ [256] = [])
  ∧ ∃ fs',
      load_model self None 3 (Some [256]) demo_fs = (Raise IndexError, fs')
      ∧ files fs' !! log_path self (exp_no self)
        = Some (default "" (files demo_fs !! log_path self (exp_no self))
                +:+ ("Number of Fully connected layers: " +:+ pretty 3)
                +:+ nl +:+ separator).
Proof.
  assert (3 ≠ 1) as Hnum by lia.
  assert ((length [256] < Z.to_nat (3 - 1))%nat ∨ [256] = @nil Z) as Hshort
    by (left; simpl; lia).
  split; [reflexivity |]. split; [exact Hnum |]. split; [exact Hshort |].
  exact (load_model_too_few_features (demo_ready "resnet18") None 3 [256]
           models_resnet18 demo_fs eq_refl Hnum Hshort).
Defined.




(** ** More on [setup_optimization] *)

Section Setup_more.

Variable str_float : spec_float → string.



End Setup_more.



(** ** More on [train] *)

Section Train_start.

Variable str_float : spec_float → string.

Lemma train_start (self : Classifier) (n_epochs : Z)
    (custom_path load_prev : option string) (valid_loss : option spec_float)
    (run_epoch : nat → Epoch) (test : TestPass) (x : exn) (fs fs' : FS) :
  is_Some (Network self) →
  resolve_start self custom_path load_prev valid_loss
    (with_dir (checkpoint_dir self) fs) = (Raise x, fs') →
  train str_float self n_epochs custom_path load_prev valid_loss run_epoch test fs
  = (Raise x, fs').
Proof.
  intros [net Hnet] Hstart. unfold train. rewrite ensure_dir_bind, Hnet.
  unfold bind at 1. by rewrite Hstart.
Qed.


(** X19.  A checkpoint to start from that is not there, custom or
    previous: [train] raises [FileNotFoundError] at the load.  No file has
    changed, the report is not purged, and whether a loss was given is not
    looked at. *)
Theorem train_missing_checkpoint (self : Classifier) (n_epochs : Z)
    (custom_path load_prev : option string) (valid_loss : option spec_float)
    (path : string) (run_epoch : nat → Epoch) (test : TestPass) (fs : FS) :
  is_Some (Network self) →
  start_checkpoint custom_path load_prev = Some path →
  files fs !! path = None →
  ∃ fs',
    train str_float self n_epochs custom_path load_prev valid_loss run_epoch
      test fs
    = (Raise FileNotFoundError, fs')
    ∧ files fs' = files fs
    ∧ checkpoint_dir self ∈ dirs fs'.
Proof.
  intros Hnet Hpath Hnone. exists (with_dir (checkpoint_dir self) fs).
  split; [|split; [apply with_dir_files | apply with_dir_elem]].
  apply train_start; [done |]. unfold resolve_start, start_checkpoint in *.
  destruct custom_path as [p|]; [|destruct load_prev as [p|]; [|done]];
    injection Hpath as ->; unfold bind at 1, read_file;
    by rewrite with_dir_files, Hnone.
Qed.

End Train_start.


(** Experiment 1 resumed from a previous checkpoint that does not exist. *)
Lemma train_missing_checkpoint_demo :
  is_Some (Network (demo_ready "resnet18"))
  ∧ start_checkpoint None (Some "C:\perf\Checkpoints\gone.pth")
    = Some "C:\perf\Checkpoints\gone.pth"
  ∧ files demo_fs_prev !! "C:\perf\Checkpoints\gone.pth" = None
  ∧ ∃ fs',
      train demo_str_float (demo_ready "resnet18") 3 None
        (Some "C:\perf\Checkpoints\gone.pth") (Some f_0_5)
        demo_epochs demo_test demo_fs_prev
      = (Raise FileNotFoundError, fs')
      ∧ files fs' = files demo_fs_prev
      ∧ checkpoint_dir (demo_ready "resnet18") ∈ dirs fs'.
Proof.
  assert (is_Some (Network (demo_ready "resnet18"))) as Hnet by (eexists; reflexivity).
  assert (files demo_fs_prev !! "C:\perf\Checkpoints\gone.pth" = None) as Hnone
    by (vm_compute; reflexivity).
  split; [exact Hnet |]. split; [reflexivity |]. split; [exact Hnone |].
  exact (train_missing_checkpoint demo_str_float (demo_ready "resnet18") 3
           None (Some "C:\perf\Checkpoints\gone.pth") (Some f_0_5)
           "C:\perf\Checkpoints\gone.pth" demo_epochs demo_test demo_fs_prev
           Hnet eq_refl Hnone).
Defined.

Section Train_checkpoint.

Variable str_float : spec_float → string.
Hypothesis str_float_chars :
  ∀ x, all_chars is_float_char (str_float x) = true.



End Train_checkpoint.


(** ** [un_normalize] *)

Lemma un_normalize_value (m s x : Q) :
  ¬ (s == 0)%Q →
  ((((x - m) / s) - (m * -1)) / (1 / s) == off_by m s x)%Q.
Proof. intros Hs. unfold off_by. field. exact Hs. Qed.

Lemma un_normalize_channel (m s : Q) (channel : list Q) :
  ¬ (s == 0)%Q →
  Forall2 Qeq
    (map (λ x, ((x - (m * -1)) / (1 / s))%Q)
         (map (λ x, ((x - m) / s)%Q) channel))
    (map (off_by m s) channel).
Proof.
  intros Hs. induction channel as [|x channel IH]; constructor; [|done].
  by apply un_normalize_value.
Qed.

(** X21.  [un_normalize] does not undo the normalization of [load_data].
    On every image of three channels both transformations are defined, and
    a value [x] of a channel with mean [m] and deviation [s] comes back as
    [x - m * (1 - s)], which is never [x]: the inverse of [Normalize(m, s)]
    is [Normalize(-m/s, 1/s)], and the code uses [Normalize(-m, 1/s)]. *)
Theorem un_normalize_after_Normalize (r g b : list Q) :
  ∃ y z,
    Normalize means stdevs [r; g; b] = Some y
    ∧ un_normalize y = Some z
    ∧ Forall2 (Forall2 Qeq) z
        [map (off_by (485 # 1000) (229 # 1000)) r;
         map (off_by (456 # 1000) (224 # 1000)) g;
         map (off_by (406 # 1000) (225 # 1000)) b]
    ∧ ∀ x, ¬ (off_by (485 # 1000) (229 # 1000) x == x)%Q
           ∧ ¬ (off_by (456 # 1000) (224 # 1000) x == x)%Q
           ∧ ¬ (off_by (406 # 1000) (225 # 1000) x == x)%Q.
Proof.
  eexists _, _. split; [reflexivity |]. split; [reflexivity |]. split.
  - repeat constructor; apply un_normalize_channel; by intros [=].
  - intros x. unfold off_by. repeat split; intros H; lra.
Qed.

(** ** [save_model] *)

Lemma whole_model_path_inj (perf : string) (e e' : Z) :
  whole_model_path perf e = whole_model_path perf e' → e = e'.
Proof.
  unfold whole_model_path. intros H%(inj (String.append _)).
  apply (inj (String.append _)) in H. apply app_inj_r in H.
  by apply (inj pretty) in H.
Qed.

Lemma whole_model_not_report (self : Classifier) (e e' : Z) :
  whole_model_path (Performance_dir self) e ≠ log_path self e'
  ∧ whole_model_path (Performance_dir self) e ≠ checkpoint_path self.
Proof.
  unfold whole_model_path, log_path, checkpoint_path, Experiment_info_dir,
    checkpoint_dir.
  rewrite !app_assoc. split; intros H%(inj (String.append _)); simpl in H;
    discriminate.
Qed.

Section Inference_properties.

Variable pickle : Net → string.

Lemma save_model_eq (self : Classifier) (fs : FS) :
  save_model pickle self true fs
  = match Network self with
    | None => (Raise AttributeError,
               with_dir (Performance_dir self +:+ "\whole_model") fs)
    | Some net =>
        (Ok (), mkFS (<[whole_model_path (Performance_dir self) (exp_no self)
                        := pickle net]> (files fs))
                     (dirs (with_dir (Performance_dir self +:+ "\whole_model") fs)))
    end.
Proof.
  unfold save_model. cbv zeta. rewrite ensure_dir_bind.
  destruct (Network self) as [net|]; [|done].
  unfold write_file, whole_model_path. rewrite with_dir_files.
  by rewrite !app_assoc.
Qed.

(** X22.  What [save_model] does to the files.  With [save] unset nothing
    changes.  With [save] set and a model loaded, the file of this
    experiment under [whole_model] holds the model, and the saved models of
    the other experiments stay as they were; without a model the call
    raises [AttributeError], and only then.  In no case does a report or
    the checkpoint change. *)
Theorem save_model_files (self : Classifier) (save : bool) (fs : FS) :
  let r := save_model pickle self save fs in
  (∀ e, files r.2 !! whole_model_path (Performance_dir self) e
        = match Network self with
          | Some net =>
              if save && bool_decide (e = exp_no self) then Some (pickle net)
              else files fs !! whole_model_path (Performance_dir self) e
          | None => files fs !! whole_model_path (Performance_dir self) e
          end)
  ∧ (∀ e, files r.2 !! log_path self e = files fs !! log_path self e)
  ∧ files r.2 !! checkpoint_path self = files fs !! checkpoint_path self
  ∧ (r.1 = Raise AttributeError ↔ save = true ∧ Network self = None)
  ∧ save_model pickle self false fs = (Ok (), fs).
Proof.
  cbv zeta. destruct save.
  - rewrite save_model_eq. destruct (Network self) as [net|]; cbn [fst snd files].
    + split; [|split; [|split; [|split]]].
      * intros e. cbn [andb]. case_bool_decide as He.
        -- subst e. by rewrite lookup_insert_eq.
        -- rewrite lookup_insert_ne; [done |].
           intros H%whole_model_path_inj. congruence.
      * intros e. rewrite lookup_insert_ne; [done |].
        apply (whole_model_not_report self).
      * rewrite lookup_insert_ne; [done |].
        apply (whole_model_not_report self (exp_no self) 0).
      * split; [done | by intros [_ [=]]].
      * done.
    + rewrite with_dir_files. repeat split; done.
  - cbn. destruct (Network self); repeat split; try done; by intros [[=] _].
Qed.

End Inference_properties.

(** ** The handler of an interrupted [train] *)


(** ** The line a replacement rewrites *)

Lemma first_line_replaced (ident l l' pre rest : string) :
  String.length ident = 15%nat →
  plain (ident +:+ l) = true → l ≠ "" →
  line_start pre → contains ident pre = false →
  contains (ident +:+ l) rest = false →
  let data := pre +:+ (ident +:+ l) +:+ String newline rest in
  re_first_run 15 (ident +:+ l') = Some ident
  ∧ re_findall_first (lits ident) data = Some (ident +:+ l)
  ∧ str_replace (ident +:+ l) (ident +:+ l') data
    = pre +:+ (ident +:+ l') +:+ String newline rest.
Proof.
  intros Hlen Hplain Hl Hstart Hpre Hrest data. unfold data.
  pose proof Hplain as HpL.
  rewrite plain_app in Hplain. apply andb_true_iff in Hplain as [Hpi Hpl].
  assert (ident ≠ "") as Hne by (by destruct ident).
  set (L := ident +:+ l) in *. set (L' := ident +:+ l').
  assert (L ≠ "") as HneL by (unfold L; by destruct ident).
  set (tail := String newline rest).
  assert (contains L tail = false) as Htail.
  { apply (contains_across_newline L ""); [done.. | by apply contains_nil_r | done]. }
  assert (∀ u v, pre = u +:+ v → v ≠ "" → starts_with ident (v +:+ (L +:+ tail)) = false)
    as Hnostart.
  { destruct Hstart as [Ho | [a0 Ho]]; rewrite Ho.
    - intros u v Huv Hv. by destruct u, v.
    - apply no_start_before_newline; [done.. |].
      rewrite Ho in Hpre. destruct (contains ident a0) eqn:E; [|done].
      apply contains_spec in E as (x & y & ->).
      rewrite !app_assoc, contains_app in Hpre. done. }
  split; [|split].
  - apply re_first_run_head, take_plain_spec. unfold L'. eauto.
  - rewrite re_findall_first_skip by done.
    apply re_findall_first_head. unfold match_ident_dotplus.
    assert (match_here (lits ident) (L +:+ tail) = Some (ident, l +:+ tail)) as ->.
    { apply match_here_spec. split; [unfold L; by rewrite app_assoc |].
      by apply matches_lits. }
    unfold tail. rewrite line_rest_before_newline by done. by destruct l.
  - rewrite str_replace_nonempty by done.
    rewrite replace_protected.
    2:{ intros u v Huv Hv. unfold L at 1. apply starts_with_longer.
        by apply (Hnostart u v). }
    rewrite replace_match by done. by rewrite replace_absent.
Qed.

(** X24.  Which line a replacement rewrites when several lines of the
    report begin with the same 15 characters, as the records of two runs
    of one experiment do: the first of them is rewritten, and the later
    ones, holding other values, stay as they are. *)
Theorem write_data_replace_first_line (self : Classifier)
    (ident l l' pre rest : string) (e : Z) (continuing : bool) (fs : FS) :
  String.length ident = 15%nat →
  all_chars is_literal ident = true →
  plain (ident +:+ l) = true → l ≠ "" →
  line_start pre → contains ident pre = false →
  contains (ident +:+ l) rest = false →
  files fs !! log_path self e
  = Some (pre +:+ (ident +:+ l) +:+ String newline rest) →
  ∃ fs',
    write_data self (Str (ident +:+ l')) e continuing true fs = (Ok (), fs')
    ∧ files fs' !! log_path self e
      = Some (pre +:+ (ident +:+ l') +:+ String newline rest).
Proof.
  intros Hlen Hlit Hplain Hl Hstart Hpre Hrest Hlog.
  destruct (first_line_replaced ident l l' pre rest Hlen Hplain Hl Hstart Hpre
              Hrest) as (Hrun & Hfind & Hrep).
  rewrite write_data_replace_eq. cbv zeta.
  rewrite Hrun, Hlog, (compile_ident_literal ident) by done.
  rewrite Hfind, Hrep. eexists. split; [done |].
  cbn [files]. by rewrite lookup_insert_eq.
Qed.

(** A report with the minimum of an earlier run, 0.8, and that of the
    present run, 0.7; the present run improves to 0.5. *)
Lemma write_data_replace_first_line_two_runs :
  let pre := "Trained From beginning" +:+ nl +:+ separator in
  let rest := separator +:+ "Minimum Valid loss: 0.7" +:+ nl in
  let fs := mkFS {[ demo_log := pre +:+ (ident2 +:+ "oss: 0.8")
                                 +:+ String newline rest ]}
                 {[ "C:\perf"; "C:\perf\Exp_data" ]} in
  String.length ident2 = 15%nat
  ∧ all_chars is_literal ident2 = true
  ∧ plain (ident2 +:+ "oss: 0.8") = true ∧ "oss: 0.8" ≠ ""
  ∧ line_start pre ∧ contains ident2 pre = false
  ∧ contains (ident2 +:+ "oss: 0.8") rest = false
  ∧ files fs !! log_path demo_self 1
    = Some (pre +:+ (ident2 +:+ "oss: 0.8") +:+ String newline rest)
  ∧ ∃ fs',
      write_data demo_self (Str (ident2 +:+ "oss: 0.5")) 1 false true fs
      = (Ok (), fs')
      ∧ files fs' !! log_path demo_self 1
        = Some (pre +:+ (ident2 +:+ "oss: 0.5") +:+ String newline rest).
Proof.
  intros pre rest fs.
  assert (line_start pre) as Hstart.
  { right. exists ("Trained From beginning" +:+ nl +:+ nl +:+ dashes +:+ nl).
    vm_compute. reflexivity. }
  assert ("oss: 0.8" ≠ "") as Hl by discriminate.
  assert (files fs !! log_path demo_self 1
          = Some (pre +:+ (ident2 +:+ "oss: 0.8") +:+ String newline rest))
    as Hlog by (vm_compute; reflexivity).
  split; [reflexivity |]. split; [reflexivity |]. split; [reflexivity |].
  split; [exact Hl |]. split; [exact Hstart |]. split; [reflexivity |].
  split; [reflexivity |]. split; [exact Hlog |].
  exact (write_data_replace_first_line demo_self ident2 "oss: 0.8" "oss: 0.5"
           pre rest 1 false fs eq_refl eq_refl eq_refl Hl Hstart eq_refl
           eq_refl Hlog).
Defined.

(** A list of lines, and a line of seven characters, in replace mode. *)
Lemma write_data_replace_bad_line_short :
  (String.length "Epoch 1" < 15)%nat
  ∧ (write_data demo_self (Str "Epoch 1") 1 false true demo_fs).1 = Raise IndexError
  ∧ files (write_data demo_self (Str "Epoch 1") 1 false true demo_fs).2
    = files demo_fs.
Proof.
  assert (String.length "Epoch 1" < 15)%nat as Hlen by (simpl; lia).
  split; [exact Hlen |].
  exact (proj2 (write_data_replace_bad_line demo_self 1 false demo_fs)
           "Epoch 1" Hlen).
Defined.

(** ** Before [load_model] *)

Section Before_load_model.

Variable str_float : spec_float → string.

(** X25.  On a classifier without a model, [setup_optimization] with
    supported names and [train] both raise [AttributeError] at the first
    use of [self.Network].  By then [setup_optimization] has set the
    learning rate aside and written its three lines to the report, and
    [train] has made the checkpoint directory; neither purges anything. *)
Theorem methods_before_load_model (self : Classifier)
    (optimizer_name scheduler_name : string)
    (learning_rate factor threshold : spec_float) (patience step_size : Z)
    (gamma : spec_float) (n_epochs : Z) (custom_path load_prev : option string)
    (valid_loss : option spec_float) (run_epoch : nat → Epoch) (test : TestPass)
    (fs : FS) :
  Network self = None →
  optimizer_name ∈ ["adam"; "SGD"] →
  scheduler_name ∈ ["reduceOnPlateau"; "StepLR"] →
  (∃ fs',
     setup_optimization str_float self optimizer_name scheduler_name
       learning_rate factor threshold patience step_size gamma fs
     = (Raise AttributeError, fs')
     ∧ files fs'
       = <[log_path self (exp_no self) :=
             default "" (files fs !! log_path self (exp_no self))
             +:+ written_text
                   (Lst ["Optimizer name: " +:+ optimizer_name;
                         "Scheduler name: " +:+ scheduler_name;
                         "Starting Learning rate: " +:+ str_float learning_rate])
                   true]> (files fs))
  ∧ ∃ fs',
      train str_float self n_epochs custom_path load_prev valid_loss run_epoch
        test fs
      = (Raise AttributeError, fs')
      ∧ files fs' = files fs
      ∧ checkpoint_dir self ∈ dirs fs'.
Proof.
  intros Hnet Hopt Hsch. split.
  - unfold setup_optimization. cbv zeta.
    unfold bind at 1. rewrite write_data_append_fs.
    rewrite (bool_decide_eq_true_2 _ Hopt), (bool_decide_eq_true_2 _ Hsch).
    cbn [negb with_lr Network]. rewrite Hnet. eexists. split; [done |]. done.
  - unfold train. rewrite ensure_dir_bind, Hnet. eexists. split; [done |].
    split; [apply with_dir_files | apply with_dir_elem].
Qed.

End Before_load_model.

(** Experiment 1 right after [__init__]. *)
Lemma methods_before_load_model_demo :
  Network demo_self = None
  ∧ ("SGD" ∈ ["adam"; "SGD"])
  ∧ ("reduceOnPlateau" ∈ ["reduceOnPlateau"; "StepLR"])
  ∧ (∃ fs',
       setup_optimization demo_str_float demo_self "SGD" "reduceOnPlateau"
         f_0_01 f_0_1 f_0_1 5 30 f_0_1 demo_fs
       = (Raise AttributeError, fs')
       ∧ files fs'
         = <[log_path demo_self (exp_no demo_self) :=
               default "" (files demo_fs !! log_path demo_self (exp_no demo_self))
               +:+ written_text
                     (Lst ["Optimizer name: " +:+ "SGD";
                           "Scheduler name: " +:+ "reduceOnPlateau";
                           "Starting Learning rate: " +:+ demo_str_float f_0_01])
                     true]> (files demo_fs))
  ∧ ∃ fs',
      train demo_str_float demo_self 3 None None None demo_epochs demo_test
        demo_fs
      = (Raise AttributeError, fs')
      ∧ files fs' = files demo_fs
      ∧ checkpoint_dir demo_self ∈ dirs fs'.
Proof.
  assert ("SGD" ∈ ["adam"; "SGD"]) as Hopt
    by exact (proj1 (bool_decide_eq_true ("SGD" ∈ ["adam"; "SGD"])) eq_refl).
  assert ("reduceOnPlateau" ∈ ["reduceOnPlateau"; "StepLR"]) as Hsch
    by exact (proj1 (bool_decide_eq_true
                ("reduceOnPlateau" ∈ ["reduceOnPlateau"; "StepLR"])) eq_refl).
  split; [reflexivity |]. split; [exact Hopt |]. split; [exact Hsch |].
  exact (methods_before_load_model demo_str_float demo_self "SGD"
           "reduceOnPlateau" f_0_01 f_0_1 f_0_1 5 30 f_0_1 3 None None None
           demo_epochs demo_test demo_fs eq_refl Hopt Hsch).
Defined.
